(** * MicroAI-Paygate: payment admission and rate limiting

    A shallow embedding of the payment-verification pipeline of the
    TypeScript service ([src/config.ts], [src/services/payment.ts],
    [src/middleware/x402.ts]), of the Go gateway's summarize handler
    ([gateway/main.go]) and of the Go token-bucket rate limiter
    ([gateway/ratelimit.go]), followed by the properties proved about them.

    Conventions.
    - Mutable module state (the nonce [Set], the console, the bucket map) is
      threaded explicitly: an operation takes the state and returns the new one.
    - What the program reads from its surroundings (the clock, random bytes,
      request headers, the process environment) is an explicit argument.
    - Library code the repository calls but does not contain (ethers' typed-data
      recovery, the HTTP call to the verifier, the AI provider) is a field of
      an interface class; theorems hold for every implementation of it.
    - Code of the repository that is not among the sources (the cache
      middleware of the gateway, of which only the integration test is) is
      modelled from the specification, and each such definition says so.
    - Go's [float64] is the kernel's binary64 [float]; nothing is idealised to
      rationals or reals. *)

From Stdlib Require Import ZArith Floats Uint63 Ascii String Lia Bool List.
From stdpp Require Import base gmap strings list.

Local Open Scope string_scope.
Local Open Scope Z_scope.

(** ** JavaScript primitives used by the TypeScript sources *)
Module JS.

(** The values of type [number] that the modelled code can produce: they are
    all integer-valued or non-finite.  [-0] is identified with [Num 0] (the
    code only compares it with [0] and tests [Number.isInteger]). *)
Inductive number :=
| NaN
| Infinity
| NegInfinity
| Num (z : Z).

(** A header or environment entry is [string | undefined]; both [undefined]
    and the empty string are falsy. *)
Definition truthy (v : option string) : bool :=
match v with
| Some s => negb (String.eqb s "")
| None => false
end.

(** [v || d] for a string-or-undefined [v] and a string [d]. *)
Definition or_default (v : option string) (d : string) : string :=
match v with
| Some s => if String.eqb s "" then d else s
| None => d
end.

(** Nearest binary64 value (ties to even) of a non-negative integer. *)
Definition round_to_double (z : Z) : number :=
if z <? 2 ^ 53 then Num z
else
  let sh := Z.log2 z - 52 in
  let q := Z.shiftr z sh in
  let r := Z.land z (Z.ones sh) in
  let half := Z.shiftl 1 (sh - 1) in
  let q' := if (half <? r) || ((r =? half) && Z.odd q) then q + 1 else q in
  let v := Z.shiftl q' sh in
  if 2 ^ 1024 <=? v then Infinity else Num v.

(** StrWhiteSpaceChar restricted to the Latin-1 code units a header value or
    an environment string can hold: TAB, LF, VT, FF, CR, SP, NBSP. *)
Definition is_StrWhiteSpaceChar (c : ascii) : bool :=
let n := Z.of_N (N_of_ascii c) in
((9 <=? n) && (n <=? 13)) || (n =? 32) || (n =? 160).

Fixpoint trimStart (s : string) : string :=
match s with
| String c s' => if is_StrWhiteSpaceChar c then trimStart s' else s
| EmptyString => EmptyString
end.

(** Value of [c] as a digit in radix [R], if it is one. *)
Definition digit_of (R : Z) (c : ascii) : option Z :=
let n := Z.of_N (N_of_ascii c) in
let v :=
  if (48 <=? n) && (n <=? 57) then Some (n - 48)
  else if (97 <=? n) && (n <=? 122) then Some (n - 87)
  else if (65 <=? n) && (n <=? 90) then Some (n - 55)
  else None in
match v with
| Some d => if d <? R then Some d else None
| None => None
end.

(** The mathematical value of the longest prefix of radix-[R] digits;
    [None] when that prefix is empty. *)
Fixpoint digits_prefix (R : Z) (s : string) (acc : option Z) : option Z :=
match s with
| String c s' =>
    match digit_of R c with
    | Some d => digits_prefix R s' (Some (default 0 acc * R + d))
    | None => acc
    end
| EmptyString => acc
end.

Definition strip_hex_prefix (s : string) : option string :=
match s with
| String "0" (String "x" r) => Some r
| String "0" (String "X" r) => Some r
| _ => None
end.

(** [parseInt(string, radix)]; [radix = None] is an omitted radix. *)
Definition parseInt (s : string) (radix : option Z) : number :=
let s0 := trimStart s in
let '(neg, s1) :=
  match s0 with
  | String "-" r => (true, r)
  | String "+" r => (false, r)
  | _ => (false, s0)
  end in
let R0 := default 0 radix in
if negb (R0 =? 0) && ((R0 <? 2) || (36 <? R0)) then NaN
else
  let stripPrefix := (R0 =? 0) || (R0 =? 16) in
  let R1 := if R0 =? 0 then 10 else R0 in
  let '(R, s2) :=
    if stripPrefix then
      match strip_hex_prefix s1 with
      | Some r => (16, r)
      | None => (R1, s1)
      end
    else (R1, s1) in
  match digits_prefix R s2 None with
  | None => NaN
  | Some v =>
      match round_to_double v with
      | Num m => Num (if neg then - m else m)
      | Infinity => if neg then NegInfinity else Infinity
      | other => other
      end
  end.

Definition Number_isInteger (n : number) : bool :=
match n with
| Num _ => true
| _ => false
end.

(** [n <= 0]; every comparison with [NaN] is false. *)
Definition le_zero (n : number) : bool :=
match n with
| Num z => z <=? 0
| NegInfinity => true
| Infinity => false
| NaN => false
end.

End JS.

(** ** Version-4 UUIDs, as the [uuid] npm package and Go's [google/uuid] print them *)
Module Uuid.

Definition hex_digit (n : N) : ascii :=
match n with
| 0%N => "0" | 1%N => "1" | 2%N => "2" | 3%N => "3"
| 4%N => "4" | 5%N => "5" | 6%N => "6" | 7%N => "7"
| 8%N => "8" | 9%N => "9" | 10%N => "a" | 11%N => "b"
| 12%N => "c" | 13%N => "d" | 14%N => "e" | _ => "f"
end%char.

(** Two lower-case hex digits of the low eight bits of [n]. *)
Definition byteToHex (n : N) : string :=
String (hex_digit (N.land (N.shiftr n 4) 15))
  (String (hex_digit (N.land n 15)) EmptyString).

(** The sixteen random bytes after the version and variant bits are set. *)
Definition stamp (rnds : nat -> Byte.byte) (i : nat) : N :=
let b := Byte.to_N (rnds i) in
match i with
| 6%nat => N.lor (N.land b 15) 64
| 8%nat => N.lor (N.land b 63) 128
| _ => b
end.

(** [uuidv4()] / [uuid.New().String()] from sixteen bytes of the system's
    random source: [xxxxxxxx-xxxx-4xxx-yxxx-xxxxxxxxxxxx]. *)
Definition uuidv4 (rnds : nat -> Byte.byte) : string :=
let h i := byteToHex (stamp rnds i) in
(h 0%nat ++ h 1%nat ++ h 2%nat ++ h 3%nat ++ "-" ++
 h 4%nat ++ h 5%nat ++ "-" ++
 h 6%nat ++ h 7%nat ++ "-" ++
 h 8%nat ++ h 9%nat ++ "-" ++
 h 10%nat ++ h 11%nat ++ h 12%nat ++ h 13%nat ++ h 14%nat ++ h 15%nat)%string.

Definition is_hex (c : ascii) : bool :=
let n := Z.of_N (N_of_ascii c) in
((48 <=? n) && (n <=? 57)) || ((97 <=? n) && (n <=? 102)).

Definition is_dash (c : ascii) : bool := Ascii.eqb c "-".

(** [s] consists of groups of hex digits of the given sizes, separated by
    single dashes. *)
Fixpoint hex_groups (first : bool) (groups : list nat) (s : string) : bool :=
match groups with
| [] => match s with EmptyString => true | _ => false end
| g :: rest =>
    let fix hexes (k : nat) (s : string) : bool :=
      match k with
      | O => hex_groups false rest s
      | S k' =>
          match s with
          | String c s' => is_hex c && hexes k' s'
          | EmptyString => false
          end
      end in
    if first then hexes g s
    else
      match s with
      | String c s' => is_dash c && hexes g s'
      | EmptyString => false
      end
end.

(** UUID-shaped: 8-4-4-4-12 hex digits, 36 characters in all. *)
Definition uuid_shaped (s : string) : bool :=
hex_groups true [8; 4; 4; 4; 12]%nat s.

End Uuid.


(** ** The TypeScript service: configuration, payment service, x402 middleware *)
Module TS.

(** [process.env]. *)
Abbreviation Env := (gmap string string).

(** The EIP-712 domain handed to ethers. *)
Record Domain := {
  name : string;
  version : string;
  domain_chainId : JS.number;
  verifyingContract : string
}.

(** The [value] object [verifyPayment] reconstructs: the signed message. *)
Record TypedValue := {
  value_recipient : string;
  value_token : string;
  value_amount : string;
  value_nonce : string;
  value_timestamp : JS.number
}.

(** What the sources import from the [ethers] package.
    - [Wallet_address key] is [new ethers.Wallet(key).address]; [None] when
      the constructor throws.
    - [verifyTypedData domain types value signature] is the recovered signer
      address; [None] when the call throws (malformed signature, failed
      recovery, a value that does not fit its declared type). *)
Class Ethers := {
  Wallet_address : string -> option string;
  verifyTypedData :
    Domain -> list (string * string) -> TypedValue -> string -> option string
}.

(** [ethers.ZeroAddress]. *)
Definition ZeroAddress : string := "0x0000000000000000000000000000000000000000".

Definition is_hex_char (c : ascii) : bool :=
let n := Z.of_N (N_of_ascii c) in
((48 <=? n) && (n <=? 57)) || ((65 <=? n) && (n <=? 70)) || ((97 <=? n) && (n <=? 102)).

Fixpoint all_hex (s : string) : bool :=
match s with
| String c s' => is_hex_char c && all_hex s'
| EmptyString => true
end.

(** [ethers.isHexString(value, length)]: [0x] followed by hex digits only,
    [length] bytes long. *)
Definition isHexString (value : string) (length : Z) : bool :=
match value with
| String "0" (String "x" r) =>
    all_hex r && (Z.of_nat (String.length value) =? 2 + 2 * length)
| _ => false
end.

(** *** config.ts *)

Record PaymentConfig := {
  TOKEN_SYMBOL : string;
  TOKEN_ADDRESS : string;
  DEFAULT_PRICE : string;
  RECIPIENT_ADDRESS : string
}.

(** The fields of [CONFIG] the payment code reads. *)
Record Config := {
  SERVER_PRIVATE_KEY : string;
  CHAIN_ID : JS.number;
  PAYMENT : PaymentConfig
}.

(** Module initialisation of config.ts; [None] when it throws (the wallet
    constructor rejects the key) and the service does not start. *)
Definition CONFIG `{Ethers} (env : Env) : option Config :=
let serverPrivateKey := JS.or_default (env !! "SERVER_WALLET_PRIVATE_KEY") "" in
let recipientEnv := JS.or_default (env !! "RECIPIENT_ADDRESS") "" in
let derived :=
  if negb (String.eqb serverPrivateKey "") then
    if isHexString serverPrivateKey 32 then Wallet_address serverPrivateKey
    else Some ""
  else Some "" in
match derived with
| None => None
| Some addr =>
    let recipient := if String.eqb addr "" then recipientEnv else addr in
    Some {|
      SERVER_PRIVATE_KEY := serverPrivateKey;
      CHAIN_ID := JS.parseInt (JS.or_default (env !! "CHAIN_ID") "8453") None;
      PAYMENT := {|
        TOKEN_SYMBOL := "USDC";
        TOKEN_ADDRESS :=
          JS.or_default (env !! "USDC_TOKEN_ADDRESS")
            "0x833589fCD6eDb6E08f4c7C32D4f71b54bdA02913";
        DEFAULT_PRICE := JS.or_default (env !! "PAYMENT_AMOUNT") "0.001";
        RECIPIENT_ADDRESS := recipient
      |}
    |}
end.

(** *** services/payment.ts *)

Record PaymentContext := {
  recipient : string;
  token : string;
  amount : string;
  chainId : JS.number;
  nonce : string;
  timestamp : JS.number
}.

Definition DOMAIN (cfg : Config) : Domain := {|
  name := "MicroAI Paygate";
  version := "1";
  domain_chainId := CHAIN_ID cfg;
  verifyingContract := ZeroAddress
|}.

(** [TYPES.Payment]. *)
Definition TYPES : list (string * string) :=
[("recipient", "address"); ("token", "string"); ("amount", "string");
 ("nonce", "string"); ("timestamp", "uint256")].

(** The module's mutable state: the in-memory [nonceStore] and what was
    written to the console. *)
Record State := {
  nonceStore : gset string;
  console : list string
}.

Record VerifyResult := {
  isValid : bool;
  error : option string;
  signer : option string
}.

(** [PaymentService.createPaymentContext(price)]: [price = None] is the
    omitted argument, [rnds] the random bytes [uuidv4] draws, [now_ms] the
    value of [Date.now()] (an integer number of milliseconds, for which
    [Math.floor(Date.now() / 1000)] is the integer quotient). *)
Definition createPaymentContext (cfg : Config) (price : option string)
    (rnds : nat -> Byte.byte) (now_ms : Z) (st : State) : PaymentContext * State :=
let nonce := Uuid.uuidv4 rnds in
let st' := {| nonceStore := nonceStore st ∪ {[nonce]}; console := console st |} in
({| recipient := RECIPIENT_ADDRESS (PAYMENT cfg);
    token := TOKEN_SYMBOL (PAYMENT cfg);
    amount := default (DEFAULT_PRICE (PAYMENT cfg)) price;
    chainId := CHAIN_ID cfg;
    nonce := nonce;
    timestamp := JS.Num (now_ms / 1000) |}, st').

(** [PaymentService.verifyPayment(context, signature)]. *)
Definition verifyPayment `{Ethers} (cfg : Config) (context : PaymentContext)
    (signature : string) (st : State) : VerifyResult * State :=
if negb (bool_decide (nonce context ∈ nonceStore st)) then
  ({| isValid := false; error := Some "Invalid or expired nonce"; signer := None |}, st)
else
  let value := {|
    value_recipient := recipient context;
    value_token := token context;
    value_amount := amount context;
    value_nonce := nonce context;
    value_timestamp := timestamp context
  |} in
  match verifyTypedData (DOMAIN cfg) TYPES value signature with
  | Some signerAddress =>
      ({| isValid := true; error := None; signer := Some signerAddress |},
       {| nonceStore := nonceStore st ∖ {[nonce context]}; console := console st |})
  | None =>
      ({| isValid := false; error := Some "Signature verification failed"; signer := None |},
       {| nonceStore := nonceStore st;
          console := console st ++ ["Payment verification failed:"] |})
  end.

(** *** middleware/x402.ts *)

(** Header names are lower-cased by the HTTP layer. *)
Record Request := {
  headers : gmap string string
}.

(** JSON bodies: the two shapes the middleware writes, and whatever the
    handler behind it writes. *)
Inductive Body :=
| PaymentRequired (err message : string) (paymentContext : PaymentContext)
| Failure (err : string) (details : option string)
| Content (payload : string).

Record Response := {
  status : Z;
  body : Body
}.

(** The middleware either answers the request itself or calls [next()] with
    [req.userWallet] set. *)
Inductive Outcome :=
| Respond (r : Response)
| Next (userWallet : option string).

Definition x402Middleware `{Ethers} (cfg : Config) (rnds : nat -> Byte.byte)
    (now_ms : Z) (req : Request) (st : State) : Outcome * State :=
let signature := headers req !! "x-402-signature" in
let nonce := headers req !! "x-402-nonce" in
let timestampHeader := headers req !! "x-402-timestamp" in
if negb (JS.truthy signature) || negb (JS.truthy nonce) then
  let '(paymentContext, st') := createPaymentContext cfg None rnds now_ms st in
  (Respond {| status := 402;
              body := PaymentRequired "Payment Required"
                "Please sign the payment context and retry with X-402-Signature and X-402-Nonce headers."
                paymentContext |}, st')
else if negb (JS.truthy timestampHeader) then
  (Respond {| status := 400;
              body := Failure "Invalid timestamp" (Some "Missing X-402-Timestamp header") |}, st)
else
  let parsedTimestamp := JS.parseInt (default "" timestampHeader) (Some 10) in
  if negb (JS.Number_isInteger parsedTimestamp) || JS.le_zero parsedTimestamp then
    (Respond {| status := 400;
                body := Failure "Invalid timestamp" (Some "Invalid X-402-Timestamp header") |}, st)
  else
    let context := {|
      recipient := RECIPIENT_ADDRESS (PAYMENT cfg);
      token := TOKEN_SYMBOL (PAYMENT cfg);
      amount := DEFAULT_PRICE (PAYMENT cfg);
      chainId := CHAIN_ID cfg;
      nonce := default "" nonce;
      timestamp := parsedTimestamp
    |} in
    let '(verification, st') := verifyPayment cfg context (default "" signature) st in
    if negb (isValid verification) then
      (Respond {| status := 403;
                  body := Failure "Payment Verification Failed" (error verification) |}, st')
    else
      (Next (signer verification),
       {| nonceStore := nonceStore st';
          console := console st' ++
            ["[x402] Payment verified from " ++ default "undefined" (signer verification)
             ++ " for nonce " ++ default "" nonce]%string |}).

(** A sequence of [verifyPayment] calls, in the order the event loop runs
    them (the function body has no [await], so calls do not interleave). *)
Fixpoint verifyAll `{Ethers} (cfg : Config) (calls : list (PaymentContext * string))
    (st : State) : list VerifyResult * State :=
match calls with
| [] => ([], st)
| (context, signature) :: rest =>
    let '(r, st1) := verifyPayment cfg context signature st in
    let '(rs, st2) := verifyAll cfg rest st1 in
    (r :: rs, st2)
end.

Definition successes (rs : list VerifyResult) : nat :=
length (filter (fun r => isValid r = true) rs).

(** A stand-in for ethers with one designated good signature that recovers
    to a fixed address and every other signature rejected, as the mock
    verifier of the gateway's cache integration test does. *)
Definition mockEthers : Ethers := {|
  Wallet_address := fun _ => Some "0xTestRecipient";
  verifyTypedData := fun _ _ _ signature =>
    if String.eqb signature "0xValidSig" then Some "0xTestUser" else None
|}.

(** The recovery step of [verifyPayment] on its own: what ethers returns
    for the message rebuilt from [context]. *)
Definition recovered `{Ethers} (cfg : Config) (context : PaymentContext)
    (signature : string) : option string :=
verifyTypedData (DOMAIN cfg) TYPES
  {| value_recipient := recipient context;
     value_token := token context;
     value_amount := amount context;
     value_nonce := nonce context;
     value_timestamp := timestamp context |} signature.

(** Whether the signature of a call recovers. *)
Definition recovers `{Ethers} (cfg : Config) (c : PaymentContext * string) : bool :=
match recovered cfg c.1 c.2 with
| Some _ => true
| None => false
end.

(** The verdict for a nonce that is not in the store. *)
Definition unknownNonce : VerifyResult :=
{| isValid := false; error := Some "Invalid or expired nonce"; signer := None |}.

(** The context the middleware rebuilds for a retry carrying [nonce] and a
    timestamp header that parsed to [ts]. *)
Definition retry_context (cfg : Config) (nonce : string) (ts : JS.number) : PaymentContext := {|
  recipient := RECIPIENT_ADDRESS (PAYMENT cfg);
  token := TOKEN_SYMBOL (PAYMENT cfg);
  amount := DEFAULT_PRICE (PAYMENT cfg);
  chainId := CHAIN_ID cfg;
  nonce := nonce;
  timestamp := ts
|}.

(** The request carries a non-empty signature, a non-empty nonce and a
    timestamp header that parses to the positive integer [ts]: the
    requests for which the middleware calls [verifyPayment]. *)
Definition presents (req : Request) (signature nonce : string) (ts : Z) : Prop :=
headers req !! "x-402-signature" = Some signature ∧ signature ≠ "" ∧
headers req !! "x-402-nonce" = Some nonce ∧ nonce ≠ "" ∧
(∃ h, headers req !! "x-402-timestamp" = Some h ∧ h ≠ "" ∧
      JS.parseInt h (Some 10) = JS.Num ts) ∧
0 < ts.

(** A request with the three x402 headers. *)
Definition signed_request (signature nonce timestamp : string) : Request :=
{| headers := {[ "x-402-signature" := signature;
                 "x-402-nonce" := nonce;
                 "x-402-timestamp" := timestamp ]} |}.

(** A sequence of requests through the middleware, each with the random
    bytes and the clock value of its arrival. *)
Fixpoint serveAll `{Ethers} (cfg : Config)
    (reqs : list ((nat -> Byte.byte) * Z * Request)) (st : State)
    : list Outcome * State :=
match reqs with
| [] => ([], st)
| (rnds, now_ms, req) :: rest =>
    let '(o, st1) := x402Middleware cfg rnds now_ms req st in
    let '(os, st2) := serveAll cfg rest st1 in
    (o :: os, st2)
end.

(** The configuration of a service started with an empty environment but
    for the recipient address. *)
Definition testConfig : Config := {|
  SERVER_PRIVATE_KEY := "";
  CHAIN_ID := JS.Num 8453;
  PAYMENT := {|
    TOKEN_SYMBOL := "USDC";
    TOKEN_ADDRESS := "0x833589fCD6eDb6E08f4c7C32D4f71b54bdA02913";
    DEFAULT_PRICE := "0.001";
    RECIPIENT_ADDRESS := "0xTestRecipient"
  |}
|}.

Definition emptyState : State := {| nonceStore := ∅; console := [] |}.

(** A random source that yields the byte [b] sixteen times. *)
Definition constantBytes (b : Byte.byte) : nat -> Byte.byte := fun _ => b.

(** A request without any x402 header. *)
Definition bareRequest : Request := {| headers := ∅ |}.

End TS.

(** ** The Go gateway's summarize handler (gateway/main.go) *)
Module Gateway.

Record PaymentContext := {
  Recipient : string;
  Token : string;
  Amount : string;
  Nonce : string;
  ChainID : Z
}.

Record VerifyRequest := {
  Context : PaymentContext;
  Signature : string
}.

Record VerifyResponse := {
  IsValid : bool;
  RecoveredAddress : string;
  Error : string
}.

Record SummarizeRequest := {
  Text : string
}.

(** The two network calls of the handler.
    - [postVerify url request]: the POST to the verifier and the decoding of
      its reply into a [VerifyResponse] (fields the reply lacks keep their
      zero value); [None] when [http.Post] returns an error.
    - [callOpenRouter text]: the summary, or the error's message. *)
Class Services := {
  postVerify : string -> VerifyRequest -> option VerifyResponse;
  callOpenRouter : string -> string + string
}.

(** [os.Getenv]: the empty string for an unset variable. *)
Definition Getenv (env : gmap string string) (key : string) : string :=
default "" (env !! key).

(** A request as the handler sees it: [GetHeader] gives the empty string
    for an absent header; [json] is what [BindJSON] decodes the body to,
    [None] when it fails. *)
Record Request := {
  header : gmap string string;
  json : option SummarizeRequest
}.

Definition GetHeader (r : Request) (key : string) : string :=
default "" (header r !! key).

Inductive H :=
| PaymentRequired (err message : string) (paymentContext : PaymentContext)
| ErrorOnly (err : string)
| ErrorDetails (err details : string)
| Result (result : string).

Record Response := {
  code : Z;
  obj : H
}.

Definition getRecipientAddress (env : gmap string string) : string :=
let addr := Getenv env "RECIPIENT_ADDRESS" in
if String.eqb addr "" then "0x2cAF48b4BA1C58721a85dFADa5aC01C2DFa62219" else addr.

Definition createPaymentContext (env : gmap string string)
    (rnds : nat -> Byte.byte) : PaymentContext := {|
  Recipient := getRecipientAddress env;
  Token := "USDC";
  Amount := "0.001";
  Nonce := Uuid.uuidv4 rnds;
  ChainID := 8453
|}.

Definition handleSummarize `{Services} (env : gmap string string)
    (rnds : nat -> Byte.byte) (c : Request) : Response :=
let signature := GetHeader c "X-402-Signature" in
let nonce := GetHeader c "X-402-Nonce" in
if String.eqb signature "" || String.eqb nonce "" then
  let context := createPaymentContext env rnds in
  {| code := 402;
     obj := PaymentRequired "Payment Required" "Please sign the payment context" context |}
else
  let context := {|
    Recipient := getRecipientAddress env;
    Token := "USDC";
    Amount := "0.001";
    Nonce := nonce;
    ChainID := 8453
  |} in
  let verifyReq := {| Context := context; Signature := signature |} in
  let verifierURL :=
    let u := Getenv env "VERIFIER_URL" in
    if String.eqb u "" then "http://127.0.0.1:3002" else u in
  match postVerify (verifierURL ++ "/verify")%string verifyReq with
  | None => {| code := 500; obj := ErrorOnly "Verification service unavailable" |}
  | Some verifyResp =>
      if negb (IsValid verifyResp) then
        {| code := 403; obj := ErrorDetails "Invalid Signature" (Error verifyResp) |}
      else
        match json c with
        | None => {| code := 400; obj := ErrorOnly "Invalid request body" |}
        | Some req =>
            match callOpenRouter (Text req) with
            | inr e => {| code := 500; obj := ErrorDetails "AI Service Failed" e |}
            | inl summary => {| code := 200; obj := Result summary |}
            end
        end
  end.

End Gateway.

(** ** The token-bucket rate limiter (gateway/ratelimit.go) *)
Module RateLimit.

(** *** Go's [time] and [math] packages, as far as the limiter uses them

    Every floating-point operation is rounded on its own, as the amd64
    compiler emits it.  (Where the compiler fuses [tokens + elapsed * rate]
    into one operation the two agree whenever [tokens] is zero, which is
    the case in the run that C7 is settled on.) *)

(** A [time.Time] obtained from [time.Now()]: a wall-clock reading and a
    monotonic reading, both in nanoseconds. *)
Record Time := {
  wall : Z;
  mono : Z
}.

(** [time.Duration]: a signed 64-bit count of nanoseconds. *)
Definition minDuration : Z := - 2 ^ 63.
Definition maxDuration : Z := 2 ^ 63 - 1.
Definition Second : Z := 1000000000.

(** [t.Sub(u)] for two readings of [time.Now()]: the difference of the
    monotonic readings, saturated to the range of [Duration]. *)
Definition Sub (t u : Time) : Z :=
let d := mono t - mono u in
if maxDuration <? d then maxDuration
else if d <? minDuration then minDuration
else d.

(** [t.Add(d)]: both readings advance by [d].  (Go drops the monotonic
    reading when it would overflow; [Unix] reads the wall clock only.) *)
Definition Add (t : Time) (d : Z) : Time :=
{| wall := wall t + d; mono := mono t + d |}.

(** [t.Unix()]: whole seconds since the epoch. *)
Definition Unix (t : Time) : Z := wall t / Second.

(** [float64(i)] for a 64-bit integer [i]: the nearest binary64 value. *)
Definition float64_of_int (i : Z) : float :=
if i =? - 2 ^ 63 then (- (of_uint63 (Uint63.of_Z (2 ^ 62)) * 2))%float
else if i <? 0 then (- of_uint63 (Uint63.of_Z (- i)))%float
else of_uint63 (Uint63.of_Z i).

(** [d.Seconds()]. *)
Definition Seconds (d : Z) : float :=
let sec := Z.quot d Second in
let nsec := Z.rem d Second in
(float64_of_int sec + float64_of_int nsec / 1e9)%float.

(** The integer part of a finite binary64 value, rounded toward zero;
    [None] for NaN and the infinities. *)
Definition trunc (x : float) : option Z :=
match Prim2SF x with
| S754_zero _ => Some 0
| S754_finite s m e =>
    let a := if 0 <=? e then Zpos m * 2 ^ e else Zpos m / 2 ^ (- e) in
    Some (if s then - a else a)
| S754_infinity _ => None
| S754_nan => None
end.

(** [int64(x)] and [int(x)] on a 64-bit platform: truncation toward zero;
    the result for a value out of range is implementation-specific, the
    amd64 one (the smallest integer) is taken. *)
Definition MinInt64 : Z := - 2 ^ 63.
Definition MaxInt64 : Z := 2 ^ 63 - 1.

Definition int_of_float64 (x : float) : Z :=
match trunc x with
| Some z => if (MinInt64 <=? z) && (z <=? MaxInt64) then z else MinInt64
| None => MinInt64
end.

(** [math.Modf(f)] for [f >= 0]: integer and fractional part. *)
Definition Modf (f : float) : float * float :=
let int :=
  match trunc f with
  | Some z => if z <? 2 ^ 52 then of_uint63 (Uint63.of_Z z) else f
  | None => f
  end in
(int, (f - int)%float).

(** [math.Floor(x)]. *)
Definition Floor (x : float) : float :=
if (x =? 0)%float || is_nan x || is_infinity x then x
else if (x <? 0)%float then
  let '(d, fract) := Modf (- x)%float in
  let d := if negb (fract =? 0)%float then (d + 1)%float else d in
  (- d)%float
else fst (Modf x).

(** [math.Min(x, y)]. *)
Definition Min (x y : float) : float :=
if (x =? neg_infinity)%float || (y =? neg_infinity)%float then neg_infinity
else if is_nan x || is_nan y then nan
else if (x =? 0)%float && (x =? y)%float then
  if get_sign x then x else y
else if (x <? y)%float then x
else y.

(** *** ratelimit.go *)

Record bucket := {
  tokens : float;
  lastCheck : Time
}.

Record TokenBucket := {
  rate : float;
  burst : Z;
  cleanupTTL : Z
}.

(** The [buckets] map of a limiter. *)
Abbreviation Buckets := (gmap string bucket).

Definition NewTokenBucket (rpm burst cleanupTTL : Z) : TokenBucket :=
let rpm := if rpm <=? 0 then 1 else rpm in
let burst := if burst <=? 0 then 1 else burst in
{| rate := (float64_of_int rpm / 60)%float;
   burst := burst;
   cleanupTTL := cleanupTTL |}.

(** [tb.getBucket(key)]; [clock] is its reading of [time.Now()].
    [LoadOrStore] keeps an existing bucket and stores the new one otherwise. *)
Definition getBucket (tb : TokenBucket) (clock : Time) (key : string)
    (buckets : Buckets) : bucket * Buckets :=
let newBucket := {| tokens := float64_of_int (burst tb); lastCheck := clock |} in
match buckets !! key with
| Some b => (b, buckets)
| None => (newBucket, <[key := newBucket]> buckets)
end.

(** [tb.AllowN(key, n)]; [clock0] is the reading taken inside [getBucket],
    [clock1] the one the body takes.  The bucket is held by pointer: the
    assignments to [b.lastCheck] and [b.tokens] update the map's entry. *)
Definition AllowN (tb : TokenBucket) (key : string) (n : Z)
    (clock0 clock1 : Time) (buckets : Buckets) : bool * Buckets :=
let '(b, buckets) := getBucket tb clock0 key buckets in
let now := clock1 in
let elapsed := Seconds (Sub now (lastCheck b)) in
let b := {| tokens := tokens b; lastCheck := now |} in
let b := {| tokens := Min (float64_of_int (burst tb)) (tokens b + elapsed * rate tb)%float;
            lastCheck := lastCheck b |} in
if (float64_of_int n <=? tokens b)%float then
  (true, <[key := {| tokens := (tokens b - float64_of_int n)%float;
                     lastCheck := lastCheck b |}]> buckets)
else
  (false, <[key := b]> buckets).

Definition Allow (tb : TokenBucket) (key : string)
    (clock0 clock1 : Time) (buckets : Buckets) : bool * Buckets :=
AllowN tb key 1 clock0 clock1 buckets.

Definition GetRemaining (tb : TokenBucket) (key : string)
    (clock0 clock1 : Time) (buckets : Buckets) : Z * Buckets :=
let '(b, buckets) := getBucket tb clock0 key buckets in
let now := clock1 in
let elapsed := Seconds (Sub now (lastCheck b)) in
let tokens := Min (float64_of_int (burst tb)) (tokens b + elapsed * rate tb)%float in
(int_of_float64 (Floor tokens), buckets).

Definition GetResetTime (tb : TokenBucket) (key : string)
    (clock0 clock1 : Time) (buckets : Buckets) : Z * Buckets :=
let '(b, buckets) := getBucket tb clock0 key buckets in
let now := clock1 in
let elapsed := Seconds (Sub now (lastCheck b)) in
let currentTokens := Min (float64_of_int (burst tb)) (tokens b + elapsed * rate tb)%float in
let tokensNeeded := (float64_of_int (burst tb) - currentTokens)%float in
if (tokensNeeded <=? 0)%float then (Unix now, buckets)
else
  let secondsToFull := (tokensNeeded / rate tb)%float in
  let resetTime := Add now (int_of_float64 (secondsToFull * float64_of_int Second)%float) in
  (Unix resetTime, buckets).

(** One pass of the [cleanup] loop at time [now]: buckets idle for longer
    than [cleanupTTL] are deleted. *)
Definition cleanup_pass (tb : TokenBucket) (now : Time) (buckets : Buckets) : Buckets :=
filter (fun kv => negb (cleanupTTL tb <? Sub now (lastCheck kv.2)) = true) buckets.

(** *** The check as the specification words it

    "Each key owns a bucket with capacity [burst] and refill rate [rpm/60]
    tokens/second.  On every check: [elapsed = now - lastRefill];
    [tokens = min(burst, tokens + elapsed*rate)]; [lastRefill = now]; if
    [tokens >= n], subtract and allow, else deny."  The bucket of the
    specification has the fields [tokens] and [lastRefill]. *)
Record spec_bucket := {
  spec_tokens : float;
  lastRefill : Time
}.

Definition spec_check (rpm burst n : Z) (now : Time) (b : spec_bucket)
    : bool * spec_bucket :=
let rate := (float64_of_int rpm / 60)%float in
let elapsed := Seconds (Sub now (lastRefill b)) in
let tokens := Min (float64_of_int burst) (spec_tokens b + elapsed * rate)%float in
if (float64_of_int n <=? tokens)%float then
  (true, {| spec_tokens := (tokens - float64_of_int n)%float; lastRefill := now |})
else
  (false, {| spec_tokens := tokens; lastRefill := now |}).

Definition to_spec (b : bucket) : spec_bucket :=
{| spec_tokens := tokens b; lastRefill := lastCheck b |}.

Definition of_spec (b : spec_bucket) : bucket :=
{| tokens := spec_tokens b; lastCheck := lastRefill b |}.

(** The refill formula of [AllowN], [GetRemaining] and [GetResetTime]
    for a bucket [b] read at [now]. *)
Definition refilled (tb : TokenBucket) (b : bucket) (now : Time) : float :=
Min (float64_of_int (burst tb))
    (tokens b + Seconds (Sub now (lastCheck b)) * rate tb)%float.

(** The bucket [getBucket] creates for a key that has none yet. *)
Definition fresh (tb : TokenBucket) (clock : Time) : bucket :=
{| tokens := float64_of_int (burst tb); lastCheck := clock |}.

(** The configured value after [NewTokenBucket]'s clamp to a minimum of 1. *)
Definition clamp1 (x : Z) : Z := if x <=? 0 then 1 else x.

(** *** Sequences of limiter calls *)

Inductive call :=
| CallAllow (key : string)
| CallAllowN (key : string) (n : Z)
| CallGetRemaining (key : string)
| CallGetResetTime (key : string).

Inductive answer :=
| Bool (b : bool)
| Int (z : Z).

Definition step (tb : TokenBucket) (c : call) (clock0 clock1 : Time)
    (buckets : Buckets) : answer * Buckets :=
match c with
| CallAllow key => let '(r, m) := Allow tb key clock0 clock1 buckets in (Bool r, m)
| CallAllowN key n => let '(r, m) := AllowN tb key n clock0 clock1 buckets in (Bool r, m)
| CallGetRemaining key => let '(r, m) := GetRemaining tb key clock0 clock1 buckets in (Int r, m)
| CallGetResetTime key => let '(r, m) := GetResetTime tb key clock0 clock1 buckets in (Int r, m)
end.

(** Each call comes with the two clock readings it takes. *)
Fixpoint run (tb : TokenBucket) (calls : list (call * Time * Time))
    (buckets : Buckets) : list answer * Buckets :=
match calls with
| [] => ([], buckets)
| (c, clock0, clock1) :: rest =>
    let '(a, m1) := step tb c clock0 clock1 buckets in
    let '(answers, m2) := run tb rest m1 in
    (a :: answers, m2)
end.

(** A clock stopped at [ns] nanoseconds. *)
Definition at_ns (ns : Z) : Time := {| wall := ns; mono := ns |}.

End RateLimit.


(** ** The AI provider call of the gateway (gateway/main.go, [callOpenRouter]) *)
Module OpenRouter.

(** A decoded JSON value, as [encoding/json] stores it in an [interface{}]:
    [nil], [bool], [float64], [string], [[]interface{}] and
    [map[string]interface{}]. *)
#[warnings="-register-all"]
Inductive value :=
| Nil
| Boolean (b : bool)
| Number (f : float)
| Str (s : string)
| Slice (l : list value)
| Map (m : gmap string value).

(** The request [callOpenRouter] builds: the POST, its two headers and the
    JSON body [{model, messages: [{role, content}]}]. *)
Record ChatRequest := {
  method : string;
  url : string;
  authorization : string;
  contentType : string;
  model : string;
  messages : list (string * string)
}.

(** [client.Do(req)] followed by [Decode(&result)]: [inl e] when [Do]
    returns the error [e]; [inr None] when the body does not decode to a
    JSON object, so that [result] stays the nil map; [inr (Some m)] when it
    decodes to the map [m].  The status code of the reply is not looked at. *)
Class Client := {
  Do : ChatRequest -> string + option (gmap string value)
}.

(** How a call ends: with a summary, with an error, or in a panic (a type
    assertion without the comma-ok form fails). *)
Inductive outcome :=
| Returned (summary : string)
| Failed (err : string)
| Panicked.

Definition newRequest (env : gmap string string) (text : string) : ChatRequest :=
let apiKey := Gateway.Getenv env "OPENROUTER_API_KEY" in
let model :=
  let m := Gateway.Getenv env "OPENROUTER_MODEL" in
  if String.eqb m "" then "z-ai/glm-4.5-air:free" else m in
let prompt := ("Summarize this text in 2 sentences: " ++ text)%string in
{| method := "POST";
   url := "https://openrouter.ai/api/v1/chat/completions";
   authorization := ("Bearer " ++ apiKey)%string;
   contentType := "application/json";
   model := model;
   messages := [("user", prompt)] |}.

(** Indexing a map that may be nil: [nil] for an absent key. *)
Definition index (m : option (gmap string value)) (key : string) : value :=
match m with
| Some m => default Nil (m !! key)
| None => Nil
end.

Definition callOpenRouter `{Client} (env : gmap string string) (text : string) : outcome :=
match Do (newRequest env text) with
| inl err => Failed err
| inr result =>
    match index result "choices" with
    | Slice (first :: _) =>
        match first with
        | Map choice =>
            match index (Some choice) "message" with
            | Map message =>
                match index (Some message) "content" with
                | Str content => Returned content
                | _ => Panicked
                end
            | _ => Panicked
            end
        | _ => Panicked
        end
    | _ => Failed "invalid response from AI provider"
    end
end.

(** A provider that answers every request with the given decoded body. *)
Definition answering (reply : string + option (gmap string value)) : Client :=
{| Do := fun _ => reply |}.

End OpenRouter.

(** ** The cache in front of the summarize handler

    [gateway/cache.go] ([CacheMiddleware], [getCacheKey] and the Redis
    client behind them) is not among the sources.  What the sources have is
    its integration test, which mounts the route as
    [r.POST("/api/ai/summarize", CacheMiddleware(), handleSummarize)], and
    the handler itself. *)
Module Cache.
Import Gateway.








End Cache.

(** ** Notions the further properties are stated with *)

(** The URL [handleSummarize] posts the verification request to. *)
Definition verifyEndpoint (env : gmap string string) : string :=
((let u := Gateway.Getenv env "VERIFIER_URL" in
  if String.eqb u "" then "http://127.0.0.1:3002" else u) ++ "/verify")%string.

(** The verification request [handleSummarize] builds for a request:
    recipient, token, amount and chain id are the server's, nonce and
    signature are the client's headers. *)
Definition verifyRequestOf (env : gmap string string) (c : Gateway.Request)
    : Gateway.VerifyRequest :=
{| Gateway.Context := {|
     Gateway.Recipient := Gateway.getRecipientAddress env;
     Gateway.Token := "USDC";
     Gateway.Amount := "0.001";
     Gateway.Nonce := Gateway.GetHeader c "X-402-Nonce";
     Gateway.ChainID := 8453 |};
   Gateway.Signature := Gateway.GetHeader c "X-402-Signature" |}.

(** The request carries both headers and the verifier answered that the
    signature is valid. *)
Definition approved `{Gateway.Services} (env : gmap string string)
    (c : Gateway.Request) : bool :=
negb (String.eqb (Gateway.GetHeader c "X-402-Signature") "")
&& negb (String.eqb (Gateway.GetHeader c "X-402-Nonce") "")
&& match Gateway.postVerify (verifyEndpoint env) (verifyRequestOf env c) with
   | Some verifyResp => Gateway.IsValid verifyResp
   | None => false
   end.

(** A verifier that accepts one signature, and a provider that echoes. *)
Definition mockServices : Gateway.Services := {|
  Gateway.postVerify := fun _ verifyReq =>
    Some {| Gateway.IsValid := String.eqb (Gateway.Signature verifyReq) "0xValidSig";
            Gateway.RecoveredAddress := "0xTestUser";
            Gateway.Error :=
              if String.eqb (Gateway.Signature verifyReq) "0xValidSig" then ""
              else "Invalid signature" |};
  Gateway.callOpenRouter := fun text => inl ("AI Summary Result")
|}.



(** The key a limiter call is about. *)
Definition call_key (c : RateLimit.call) : string :=
match c with
| RateLimit.CallAllow key => key
| RateLimit.CallAllowN key _ => key
| RateLimit.CallGetRemaining key => key
| RateLimit.CallGetResetTime key => key
end.

(** The nonce a bare request draws. *)
Definition drawn (e : (nat -> Byte.byte) * Z * TS.Request) : string :=
Uuid.uuidv4 e.1.1.

(** The sign [parseInt] takes off the front of the trimmed string. *)
Definition split_sign (s : string) : bool * string :=
match s with
| String "-" r => (true, r)
| String "+" r => (false, r)
| _ => (false, s)
end.

(** The request [req] with its timestamp header replaced. *)
Definition with_timestamp (req : TS.Request) (h : string) : TS.Request :=
{| TS.headers := <["x-402-timestamp" := h]> (TS.headers req) |}.

(** * Properties *)

(** ** UUID formatting *)
Section UuidFacts.
Import Uuid.

Lemma hex_digit_is_hex (n : N) : is_hex (hex_digit n) = true.
Proof.
  destruct n as [|p]; [reflexivity|].
  do 4 (destruct p as [p|p|]; try reflexivity).
Qed.

Lemma uuidv4_shaped (rnds : nat -> Byte.byte) : uuid_shaped (uuidv4 rnds) = true.
Proof.
  unfold uuidv4, byteToHex.
  generalize (stamp rnds); intros f.
  cbv beta iota delta [String.append].
  unfold uuid_shaped. cbn [hex_groups].
  rewrite !hex_digit_is_hex. reflexivity.
Qed.

Lemma uuidv4_length (rnds : nat -> Byte.byte) : String.length (uuidv4 rnds) = 36%nat.
Proof.
  unfold uuidv4, byteToHex.
  cbv beta iota delta [String.append]. reflexivity.
Qed.

Lemma uuidv4_nonempty (rnds : nat -> Byte.byte) : uuidv4 rnds ≠ "".
Proof. intros Heq. pose proof (uuidv4_length rnds) as Hl. rewrite Heq in Hl. discriminate. Qed.

End UuidFacts.

(** ** The payment service *)
Section PaymentService.
Import TS.
Context `{E : Ethers}.

(** The three ways out of [verifyPayment]. *)
Lemma verifyPayment_unknown cfg context signature st :
  nonce context ∉ nonceStore st →
  verifyPayment cfg context signature st =
  ({| isValid := false; error := Some "Invalid or expired nonce"; signer := None |}, st).
Proof.
  intros Hn. unfold verifyPayment.
  rewrite bool_decide_eq_false_2 by done. reflexivity.
Qed.

Lemma verifyPayment_recovered cfg context signature st addr :
  nonce context ∈ nonceStore st →
  recovered cfg context signature = Some addr →
  verifyPayment cfg context signature st =
  ({| isValid := true; error := None; signer := Some addr |},
   {| nonceStore := nonceStore st ∖ {[nonce context]}; console := console st |}).
Proof.
  intros Hn Hr. unfold verifyPayment, recovered in *.
  rewrite bool_decide_eq_true_2 by done. cbn [negb]. rewrite Hr. reflexivity.
Qed.

Lemma verifyPayment_thrown cfg context signature st :
  nonce context ∈ nonceStore st →
  recovered cfg context signature = None →
  verifyPayment cfg context signature st =
  ({| isValid := false; error := Some "Signature verification failed"; signer := None |},
   {| nonceStore := nonceStore st;
      console := console st ++ ["Payment verification failed:"] |}).
Proof.
  intros Hn Hr. unfold verifyPayment, recovered in *.
  rewrite bool_decide_eq_true_2 by done. cbn [negb]. rewrite Hr. reflexivity.
Qed.

(** A verdict is valid exactly when the nonce is in the store and the
    signature recovers. *)
Lemma verifyPayment_valid_iff cfg context signature st :
  isValid (verifyPayment cfg context signature st).1 = true ↔
  nonce context ∈ nonceStore st ∧ is_Some (recovered cfg context signature).
Proof.
  destruct (decide (nonce context ∈ nonceStore st)) as [Hin|Hout].
  - destruct (recovered cfg context signature) as [addr|] eqn:Hr.
    + rewrite (verifyPayment_recovered _ _ _ _ addr) by done. cbn. split; eauto.
    + rewrite verifyPayment_thrown by done. cbn. split; [done|].
      intros [_ [? ?]]; done.
  - rewrite verifyPayment_unknown by done. cbn. split; [done|]. intros [? _]; done.
Qed.

Lemma verifyPayment_store cfg context signature st :
  nonceStore (verifyPayment cfg context signature st).2 =
  if isValid (verifyPayment cfg context signature st).1
  then nonceStore st ∖ {[nonce context]} else nonceStore st.
Proof.
  destruct (decide (nonce context ∈ nonceStore st)) as [Hin|Hout].
  - destruct (recovered cfg context signature) as [addr|] eqn:Hr.
    + rewrite (verifyPayment_recovered _ _ _ _ addr) by done. reflexivity.
    + rewrite verifyPayment_thrown by done. reflexivity.
  - rewrite verifyPayment_unknown by done. reflexivity.
Qed.

(** How the middleware branches on the headers. *)
Lemma x402_unchallenged cfg rnds now_ms req st :
  JS.truthy (headers req !! "x-402-signature") = false ∨
  JS.truthy (headers req !! "x-402-nonce") = false →
  x402Middleware cfg rnds now_ms req st =
  (Respond {| status := 402;
              body := PaymentRequired "Payment Required"
                "Please sign the payment context and retry with X-402-Signature and X-402-Nonce headers."
                (createPaymentContext cfg None rnds now_ms st).1 |},
   (createPaymentContext cfg None rnds now_ms st).2).
Proof.
  intros Hm. unfold x402Middleware.
  assert (negb (JS.truthy (headers req !! "x-402-signature"))
          || negb (JS.truthy (headers req !! "x-402-nonce")) = true) as ->.
  { destruct Hm as [-> | ->]; [reflexivity | apply orb_true_r]. }
  reflexivity.
Qed.

Lemma truthy_Some s : s ≠ "" → JS.truthy (Some s) = true.
Proof.
  intros Hs. unfold JS.truthy.
  destruct (String.eqb_spec s ""); [done | reflexivity].
Qed.

Lemma x402_verifies cfg rnds now_ms req st signature nonce ts :
  presents req signature nonce ts →
  x402Middleware cfg rnds now_ms req st =
  let '(verification, st') :=
    verifyPayment cfg (retry_context cfg nonce (JS.Num ts)) signature st in
  if negb (isValid verification) then
    (Respond {| status := 403;
                body := Failure "Payment Verification Failed" (error verification) |}, st')
  else
    (Next (signer verification),
     {| nonceStore := nonceStore st';
        console := console st' ++
          ["[x402] Payment verified from " ++ default "undefined" (signer verification)
           ++ " for nonce " ++ nonce]%string |}).
Proof.
  intros (Hs & Hs' & Hn & Hn' & (h & Ht & Ht' & Hp) & Hpos).
  unfold x402Middleware. rewrite Hs, Hn, Ht.
  rewrite !truthy_Some by done. cbn [negb orb default from_option id].
  rewrite Hp. cbn [JS.Number_isInteger JS.le_zero negb orb].
  destruct (Z.leb_spec ts 0); [lia|]. reflexivity.
Qed.

End PaymentService.

Section Admission.
Import TS.
Context `{E : Ethers}.

Lemma truthy_inv (v : option string) :
  JS.truthy v = true → ∃ s, v = Some s ∧ s ≠ "".
Proof.
  destruct v as [s|]; cbn; [|done].
  destruct (String.eqb_spec s ""); [done|]. eauto.
Qed.

Lemma positive_integer_inv (p : JS.number) :
  negb (JS.Number_isInteger p) || JS.le_zero p = false → ∃ ts, p = JS.Num ts ∧ 0 < ts.
Proof.
  destruct p as [| | |z]; cbn; try done.
  destruct (Z.leb_spec z 0); [done|]. eauto.
Qed.

(** A request that is not a bare challenge request either lacks a usable
    timestamp header (400, state untouched) or reaches [verifyPayment]. *)
Lemma x402_cases cfg rnds now_ms req st :
  (JS.truthy (headers req !! "x-402-signature") = false ∨
   JS.truthy (headers req !! "x-402-nonce") = false)
  ∨ (∃ details,
       x402Middleware cfg rnds now_ms req st =
       (Respond {| status := 400; body := Failure "Invalid timestamp" (Some details) |}, st))
  ∨ (∃ signature nonce ts, presents req signature nonce ts).
Proof.
  destruct (JS.truthy (headers req !! "x-402-signature")) eqn:Hs; [|auto].
  destruct (JS.truthy (headers req !! "x-402-nonce")) eqn:Hn; [|auto].
  right.
  pose proof Hs as Hs0. pose proof Hn as Hn0.
  apply truthy_inv in Hs as (sg & Hs & Hs').
  apply truthy_inv in Hn as (nn & Hn & Hn').
  destruct (JS.truthy (headers req !! "x-402-timestamp")) eqn:Ht.
  2:{ left. eexists. unfold x402Middleware.
      rewrite Hs0, Hn0, Ht. cbn [negb orb]. reflexivity. }
  pose proof Ht as Ht0. apply truthy_inv in Ht as (h & Ht & Ht').
  destruct (negb (JS.Number_isInteger (JS.parseInt h (Some 10)))
            || JS.le_zero (JS.parseInt h (Some 10))) eqn:Hp.
  { left. eexists. unfold x402Middleware.
    rewrite Hs0, Hn0, Ht0. cbn [negb orb]. rewrite Ht.
    cbn [default from_option id]. rewrite Hp. reflexivity. }
  right. apply positive_integer_inv in Hp as (ts & Hp & Hpos).
  exists sg, nn, ts. repeat split; eauto.
Qed.


End Admission.

(** ** The cache and the payment check *)
Section CacheInvariant.
Import Gateway Cache.

(** The handler, with the verifier's URL and the verification request
    named. *)
Lemma handleSummarize_eq `{S : Services} env rnds c :
  handleSummarize env rnds c =
  if String.eqb (GetHeader c "X-402-Signature") "" || String.eqb (GetHeader c "X-402-Nonce") ""
  then {| code := 402;
          obj := PaymentRequired "Payment Required" "Please sign the payment context"
                   (createPaymentContext env rnds) |}
  else
    match postVerify (verifyEndpoint env) (verifyRequestOf env c) with
    | None => {| code := 500; obj := ErrorOnly "Verification service unavailable" |}
    | Some verifyResp =>
        if negb (IsValid verifyResp) then
          {| code := 403; obj := ErrorDetails "Invalid Signature" (Error verifyResp) |}
        else
          match json c with
          | None => {| code := 400; obj := ErrorOnly "Invalid request body" |}
          | Some req =>
              match callOpenRouter (Text req) with
              | inr e => {| code := 500; obj := ErrorDetails "AI Service Failed" e |}
              | inl summary => {| code := 200; obj := Result summary |}
              end
          end
    end.
Proof. reflexivity. Qed.




Context `{E : TS.Ethers} `{S : Services} `{K : Keys}.


End CacheInvariant.


Section NonceStore.
Import TS.
Context `{E : Ethers}.

Lemma successes_cons r rs :
  successes (r :: rs) = ((if isValid r then 1 else 0) + successes rs)%nat.
Proof.
  unfold successes. rewrite filter_cons.
  destruct (isValid r) eqn:Hr; case_decide; try done; reflexivity.
Qed.

(** Once the nonce is gone, every call presenting it is turned away and
    nothing changes. *)
Lemma verifyAll_absent cfg calls st n :
  n ∉ nonceStore st →
  Forall (λ c, nonce c.1 = n) calls →
  Forall (λ r, r = unknownNonce) (verifyAll cfg calls st).1 ∧
  (verifyAll cfg calls st).2 = st.
Proof.
  intros Hn Hall. induction Hall as [|[context signature] rest Hc _ IH]; cbn [verifyAll].
  - by split.
  - cbn in Hc. rewrite verifyPayment_unknown by (by rewrite Hc).
    destruct (verifyAll cfg rest st) as [rs st2]. cbn [fst snd] in *.
    destruct IH as [IH1 IH2]. split; [by constructor | done].
Qed.

Lemma successes_unknown rs :
  Forall (λ r, r = unknownNonce) rs → successes rs = 0%nat.
Proof.
  induction 1 as [|r rs Hr _ IH]; [reflexivity|].
  rewrite successes_cons, IH, Hr. reflexivity.
Qed.

Lemma verifyAll_present cfg calls st n :
  n ∈ nonceStore st →
  Forall (λ c, nonce c.1 = n) calls →
  successes (verifyAll cfg calls st).1 =
  (if existsb (recovers cfg) calls then 1 else 0)%nat.
Proof.
  intros Hn Hall. revert st Hn.
  induction Hall as [|[context signature] rest Hc Hrest IH]; intros st Hn;
    cbn [verifyAll existsb]; [reflexivity|].
  cbn in Hc. unfold recovers at 1. cbn [fst snd].
  destruct (recovered cfg context signature) as [addr|] eqn:Hr.
  - rewrite (verifyPayment_recovered _ _ _ _ addr) by (by rewrite ?Hc).
    set (st1 := {| nonceStore := nonceStore st ∖ {[nonce context]}; console := console st |}).
    assert (n ∉ nonceStore st1) as Hgone.
    { subst st1. cbn [nonceStore]. rewrite Hc.
      apply not_elem_of_difference. right. by apply elem_of_singleton. }
    destruct (verifyAll_absent cfg rest st1 n Hgone Hrest) as [Hrs _].
    destruct (verifyAll cfg rest st1) as [rs st2]. cbn [fst snd] in *.
    rewrite successes_cons, (successes_unknown _ Hrs). reflexivity.
  - rewrite verifyPayment_thrown by (by rewrite ?Hc).
    set (st1 := {| nonceStore := nonceStore st;
                   console := console st ++ ["Payment verification failed:"] |}).
    specialize (IH st1 Hn).
    destruct (verifyAll cfg rest st1) as [rs st2]. cbn [fst snd] in *.
    rewrite successes_cons, IH. reflexivity.
Qed.

(** C2, as the code has it.  For a nonce in the store and any sequence of
    [verifyPayment] calls presenting it, at most one call succeeds, and
    exactly one does when at least one of the calls carries a signature
    that recovers: the first such call.  A call whose signature does not
    recover fails and does not consume the nonce, so the count is zero
    when none recovers.  After a successful call every further call with
    that nonce is turned away ("Invalid or expired nonce"), and so is
    every call with a nonce that is not in the store. *)
Theorem nonce_consumed_by_first_recovering_call cfg st n calls :
  n ∈ nonceStore st →
  Forall (λ c, nonce c.1 = n) calls →
  successes (verifyAll cfg calls st).1 =
    (if existsb (recovers cfg) calls then 1 else 0)%nat
  ∧ (∀ st0 context signature later,
       isValid (verifyPayment cfg context signature st0).1 = true →
       Forall (λ c, nonce c.1 = nonce context) later →
       Forall (λ r, r = unknownNonce)
         (verifyAll cfg later (verifyPayment cfg context signature st0).2).1)
  ∧ (∀ st0 context signature,
       nonce context ∉ nonceStore st0 →
       verifyPayment cfg context signature st0 = (unknownNonce, st0)).
Proof.
  intros Hn Hall. split; [by apply (verifyAll_present _ _ _ n)|]. split.
  - intros st0 context signature later Hv Hlater.
    pose proof (verifyPayment_store cfg context signature st0) as Hst.
    rewrite Hv in Hst.
    apply (verifyAll_absent _ _ _ (nonce context)); [|done].
    rewrite Hst. apply not_elem_of_difference. right. by apply elem_of_singleton.
  - intros st0 context signature Hout. by apply verifyPayment_unknown.
Qed.

(** C5, as the code has it.  [verifyPayment] is not free of effects on the
    module state: it reads the nonce store, deletes the presented nonce
    from it when (and only when) the verdict is valid, and writes to the
    console when recovery throws.  Its frame: every other nonce is left as
    it was, and an invalid verdict leaves the store as it was. *)
Theorem verifyPayment_consumes_the_nonce cfg context signature st :
  nonceStore (verifyPayment cfg context signature st).2 =
    (if isValid (verifyPayment cfg context signature st).1
     then nonceStore st ∖ {[nonce context]} else nonceStore st)
  ∧ (isValid (verifyPayment cfg context signature st).1 = true ↔
     nonce context ∈ nonceStore st ∧ is_Some (recovered cfg context signature))
  ∧ (∀ m, m ≠ nonce context →
       (m ∈ nonceStore (verifyPayment cfg context signature st).2 ↔ m ∈ nonceStore st))
  ∧ console (verifyPayment cfg context signature st).2 =
      (console st ++
       (if bool_decide (nonce context ∈ nonceStore st) && negb (recovers cfg (context, signature))
        then ["Payment verification failed:"] else []))%list.
Proof.
  split; [apply verifyPayment_store|]. split; [apply verifyPayment_valid_iff|]. split.
  - intros m Hm. rewrite verifyPayment_store.
    destruct (isValid _); [|done].
    rewrite elem_of_difference, elem_of_singleton. tauto.
  - unfold recovers. cbn [fst snd].
    destruct (decide (nonce context ∈ nonceStore st)) as [Hin|Hout].
    + rewrite bool_decide_eq_true_2 by done.
      destruct (recovered cfg context signature) as [addr|] eqn:Hr.
      * rewrite (verifyPayment_recovered _ _ _ _ addr) by done. cbn.
        by rewrite app_nil_r.
      * rewrite verifyPayment_thrown by done. reflexivity.
    + rewrite bool_decide_eq_false_2 by done.
      rewrite verifyPayment_unknown by done. cbn. by rewrite app_nil_r.
Qed.

(** C10. When recovery fails ([verifyTypedData] throws) for a nonce that
    is in the store, [verifyPayment] returns [isValid = false] and leaves
    the nonce store as it was: the presented nonce is still there, and a
    later call with the same nonce and a signature that recovers succeeds.
    The store changes only in a call whose signature recovered. *)
Theorem failed_recovery_does_not_consume_the_nonce cfg context signature st :
  nonce context ∈ nonceStore st →
  recovered cfg context signature = None →
  isValid (verifyPayment cfg context signature st).1 = false
  ∧ nonceStore (verifyPayment cfg context signature st).2 = nonceStore st
  ∧ nonce context ∈ nonceStore (verifyPayment cfg context signature st).2
  ∧ (∀ signature' addr,
       recovered cfg context signature' = Some addr →
       (verifyPayment cfg context signature' (verifyPayment cfg context signature st).2).1 =
       {| isValid := true; error := None; signer := Some addr |})
  ∧ (∀ st0 context0 signature0,
       nonceStore (verifyPayment cfg context0 signature0 st0).2 ≠ nonceStore st0 →
       is_Some (recovered cfg context0 signature0)).
Proof.
  intros Hin Hr. rewrite verifyPayment_thrown by done. cbn [fst snd nonceStore isValid].
  repeat split; try done.
  - intros signature' addr Hr'.
    rewrite (verifyPayment_recovered _ _ _ _ addr) by done. reflexivity.
  - intros st0 context0 signature0 Hchg.
    rewrite verifyPayment_store in Hchg.
    destruct (isValid (verifyPayment cfg context0 signature0 st0).1) eqn:Hv; [|done].
    by apply verifyPayment_valid_iff in Hv as [_ ?].
Qed.

End NonceStore.

Section Timestamps.
Import TS.
Context `{E : Ethers}.

(** C3, as the code has it.  The timestamp of a claim is part of the
    signed message and is never compared with the clock: for every clock
    reading and every timestamp, older than any expiry window, newer than
    any clock-skew allowance or exactly at [now - expirySeconds], a request
    whose nonce is in the store and whose signature recovers is accepted
    with a valid verdict.  The only timestamps turned away are a missing
    header and one that does not parse to a positive integer, both with
    400 and before verification. *)
Theorem timestamp_is_not_compared_with_the_clock
    cfg rnds now_ms req st signature nonce ts addr :
  presents req signature nonce ts →
  nonce ∈ nonceStore st →
  recovered cfg (retry_context cfg nonce (JS.Num ts)) signature = Some addr →
  (x402Middleware cfg rnds now_ms req st).1 = Next (Some addr)
  ∧ (verifyPayment cfg (retry_context cfg nonce (JS.Num ts)) signature st).1 =
      {| isValid := true; error := None; signer := Some addr |}
  ∧ (∀ req',
       JS.truthy (headers req' !! "x-402-signature") = true →
       JS.truthy (headers req' !! "x-402-nonce") = true →
       (¬ ∃ signature' nonce' ts', presents req' signature' nonce' ts') →
       ∃ details,
         x402Middleware cfg rnds now_ms req' st =
         (Respond {| status := 400; body := Failure "Invalid timestamp" (Some details) |}, st)).
Proof.
  intros Hp Hin Hr. split; [|split].
  - rewrite (x402_verifies _ _ _ _ _ _ _ _ Hp).
    rewrite (verifyPayment_recovered _ _ _ _ addr) by done. reflexivity.
  - rewrite (verifyPayment_recovered _ _ _ _ addr) by done. reflexivity.
  - intros req' Hs Hn Hnot.
    destruct (x402_cases cfg rnds now_ms req' st) as [[Hc|Hc]|[Hc|Hc]];
      [congruence | congruence | done | done].
Qed.

(** The middleware never removes a nonce other than the one presented. *)
Lemma x402_store_preserved cfg rnds now_ms req st n :
  n ∈ nonceStore st →
  headers req !! "x-402-nonce" ≠ Some n →
  n ∈ nonceStore (x402Middleware cfg rnds now_ms req st).2.
Proof.
  intros Hin Hne.
  destruct (x402_cases cfg rnds now_ms req st) as [Hc|[(d & Hc)|(sg & nn & ts & Hp)]].
  - rewrite x402_unchallenged by done. cbn. apply elem_of_union. by left.
  - by rewrite Hc.
  - rewrite (x402_verifies _ _ _ _ _ _ _ _ Hp).
    pose proof (verifyPayment_store cfg (retry_context cfg nn (JS.Num ts)) sg st) as Hst.
    destruct (verifyPayment cfg (retry_context cfg nn (JS.Num ts)) sg st) as [v st1].
    cbn [fst snd] in Hst.
    assert (n ≠ nn) as Hnn.
    { intros ->. destruct Hp as (_ & _ & Hn & _). done. }
    destruct (isValid v); cbn [negb snd nonceStore]; rewrite Hst; [|done].
    apply elem_of_difference. split; [done|]. by rewrite elem_of_singleton.
Qed.

Lemma serveAll_store_preserved cfg reqs st n :
  n ∈ nonceStore st →
  Forall (λ e, headers e.2 !! "x-402-nonce" ≠ Some n) reqs →
  n ∈ nonceStore (serveAll cfg reqs st).2.
Proof.
  intros Hin Hall. revert st Hin.
  induction Hall as [|[[rnds now_ms] req] rest Hne _ IH]; intros st Hin; cbn [serveAll].
  - done.
  - pose proof (x402_store_preserved cfg rnds now_ms req st n Hin Hne) as Hin1.
    destruct (x402Middleware cfg rnds now_ms req st) as [o st1]. cbn [snd] in Hin1.
    specialize (IH st1 Hin1).
    destruct (serveAll cfg rest st1) as [os st2]. done.
Qed.

(** C4, as the code has it.  The nonce store is a plain set: an entry
    carries no issue time, nothing compares its age with
    [expirySeconds + clockSkewSeconds] and nothing purges it.  A nonce in
    the store stays there through any sequence of requests, arriving at
    any clock readings, that do not present it, and is then still accepted:
    a request presenting it with a signature that recovers is accepted,
    whatever the clock says.  Entries leave the store only by a valid
    verdict on them. *)
Theorem nonce_store_has_no_expiry cfg reqs st n :
  n ∈ nonceStore st →
  Forall (λ e, headers e.2 !! "x-402-nonce" ≠ Some n) reqs →
  n ∈ nonceStore (serveAll cfg reqs st).2
  ∧ (∀ rnds now_ms req signature ts addr,
       presents req signature n ts →
       recovered cfg (retry_context cfg n (JS.Num ts)) signature = Some addr →
       (x402Middleware cfg rnds now_ms req (serveAll cfg reqs st).2).1 = Next (Some addr))
  ∧ (∀ rnds now_ms req st0 m,
       m ∈ nonceStore st0 →
       m ∉ nonceStore (x402Middleware cfg rnds now_ms req st0).2 →
       ∃ wallet, (x402Middleware cfg rnds now_ms req st0).1 = Next wallet
                 ∧ headers req !! "x-402-nonce" = Some m).
Proof.
  intros Hin Hall.
  pose proof (serveAll_store_preserved cfg reqs st n Hin Hall) as Hkept.
  split; [done|]. split.
  - intros rnds now_ms req signature ts addr Hp Hr.
    rewrite (x402_verifies _ _ _ _ _ _ _ _ Hp).
    rewrite (verifyPayment_recovered _ _ _ _ addr) by done. reflexivity.
  - intros rnds now_ms req st0 m Hm Hgone.
    destruct (decide (headers req !! "x-402-nonce" = Some m)) as [Heq|Hne].
    2:{ exfalso. apply Hgone. by apply x402_store_preserved. }
    destruct (x402_cases cfg rnds now_ms req st0) as [Hc|[(d & Hc)|(sg & nn & ts & Hp)]].
    + exfalso. apply Hgone. rewrite x402_unchallenged by done. cbn.
      apply elem_of_union. by left.
    + exfalso. apply Hgone. by rewrite Hc.
    + rewrite (x402_verifies _ _ _ _ _ _ _ _ Hp) in Hgone |- *.
      pose proof (verifyPayment_store cfg (retry_context cfg nn (JS.Num ts)) sg st0) as Hst.
      destruct (verifyPayment cfg (retry_context cfg nn (JS.Num ts)) sg st0) as [v st1].
      cbn [fst snd] in Hst.
      destruct (isValid v); cbn [negb fst snd nonceStore] in *; [eauto|].
      exfalso. apply Hgone. by rewrite Hst.
Qed.

End Timestamps.

(** ** The 402 challenge *)
Section Challenge.

Lemma or_default_falsy (v : option string) (d : string) :
  JS.truthy v = false → JS.or_default v d = d.
Proof.
  destruct v as [s|]; cbn; [|done].
  destruct (String.eqb s ""); [done | discriminate].
Qed.

Lemma CONFIG_default_price `{E : TS.Ethers} (env : gmap string string) (cfg : TS.Config) :
  TS.CONFIG env = Some cfg →
  TS.DEFAULT_PRICE (TS.PAYMENT cfg) = JS.or_default (env !! "PAYMENT_AMOUNT") "0.001".
Proof.
  unfold TS.CONFIG. intros Hc.
  repeat case_match; simplify_eq; reflexivity.
Qed.

(** C9. A request to the metered endpoint that lacks the signature or the
    nonce header is answered with 402 and a payment context issued for
    this request: its nonce is the version-4 UUID drawn for it, a
    36-character string of the shape 8-4-4-4-12, and its amount is "0.001".
    This holds for the Go gateway's handler outright; for the TypeScript
    middleware the context is also recorded in the nonce store and the
    amount is the configured default price, which is "0.001" unless the
    environment sets PAYMENT_AMOUNT. *)
Theorem unchallenged_request_gets_402_with_fresh_context :
  (∀ (S : Gateway.Services) (env : gmap string string) (rnds : nat → Byte.byte)
     (c : Gateway.Request),
     Gateway.GetHeader c "X-402-Signature" = "" ∨ Gateway.GetHeader c "X-402-Nonce" = "" →
     ∃ ctx,
       Gateway.handleSummarize env rnds c =
         {| Gateway.code := 402;
            Gateway.obj := Gateway.PaymentRequired "Payment Required"
                             "Please sign the payment context" ctx |}
       ∧ Gateway.Nonce ctx = Uuid.uuidv4 rnds
       ∧ String.length (Gateway.Nonce ctx) = 36%nat
       ∧ Uuid.uuid_shaped (Gateway.Nonce ctx) = true
       ∧ Gateway.Amount ctx = "0.001")
  ∧
  (∀ (E : TS.Ethers) (env : gmap string string) (cfg : TS.Config)
     (rnds : nat → Byte.byte) (now_ms : Z) (req : TS.Request) (st : TS.State),
     TS.CONFIG env = Some cfg →
     JS.truthy (TS.headers req !! "x-402-signature") = false ∨
     JS.truthy (TS.headers req !! "x-402-nonce") = false →
     ∃ ctx st',
       TS.x402Middleware cfg rnds now_ms req st =
         (TS.Respond {| TS.status := 402;
                        TS.body := TS.PaymentRequired "Payment Required"
                          "Please sign the payment context and retry with X-402-Signature and X-402-Nonce headers."
                          ctx |}, st')
       ∧ TS.nonce ctx = Uuid.uuidv4 rnds
       ∧ String.length (TS.nonce ctx) = 36%nat
       ∧ Uuid.uuid_shaped (TS.nonce ctx) = true
       ∧ TS.nonce ctx ∈ TS.nonceStore st'
       ∧ TS.amount ctx = JS.or_default (env !! "PAYMENT_AMOUNT") "0.001"
       ∧ (JS.truthy (env !! "PAYMENT_AMOUNT") = false → TS.amount ctx = "0.001")).
Proof.
  split.
  - intros S env rnds c Hc.
    exists (Gateway.createPaymentContext env rnds).
    split; [|repeat split; cbn [Gateway.Nonce Gateway.createPaymentContext];
               auto using uuidv4_length, uuidv4_shaped].
    unfold Gateway.handleSummarize.
    assert (String.eqb (Gateway.GetHeader c "X-402-Signature") ""
            || String.eqb (Gateway.GetHeader c "X-402-Nonce") "" = true) as ->; [|done].
    destruct Hc as [-> | ->]; [reflexivity | apply orb_true_r].
  - intros E env cfg rnds now_ms req st Hcfg Hc.
    exists (TS.createPaymentContext cfg None rnds now_ms st).1,
           (TS.createPaymentContext cfg None rnds now_ms st).2.
    split; [by apply x402_unchallenged|].
    cbn [TS.createPaymentContext fst snd TS.nonce TS.amount TS.nonceStore default from_option id].
    rewrite (CONFIG_default_price env cfg Hcfg).
    repeat split; auto using uuidv4_length, uuidv4_shaped.
    + apply elem_of_union. right. by apply elem_of_singleton.
    + intros Hf. by apply or_default_falsy.
Qed.

End Challenge.

(** ** The token bucket *)
Section Limiter.
Import RateLimit.

Lemma getBucket_eq tb clock key (buckets : gmap string bucket) :
  getBucket tb clock key buckets =
  (default (fresh tb clock) (buckets !! key),
   match buckets !! key with
   | Some _ => buckets
   | None => <[key := fresh tb clock]> buckets
   end).
Proof. unfold getBucket, fresh. by destruct (buckets !! key). Qed.

Lemma getBucket_insert tb clock key (buckets : gmap string bucket) b :
  <[key := b]> (getBucket tb clock key buckets).2 = <[key := b]> buckets.
Proof.
  rewrite getBucket_eq. cbn [snd].
  destruct (buckets !! key); [done|]. apply insert_insert_eq.
Qed.

Lemma AllowN_refilled tb key n clock0 clock1 (buckets : gmap string bucket) :
  AllowN tb key n clock0 clock1 buckets =
  let t := refilled tb (getBucket tb clock0 key buckets).1 clock1 in
  if (float64_of_int n <=? t)%float then
    (true, <[key := {| tokens := (t - float64_of_int n)%float; lastCheck := clock1 |}]> buckets)
  else
    (false, <[key := {| tokens := t; lastCheck := clock1 |}]> buckets).
Proof.
  unfold AllowN, refilled.
  pose proof (getBucket_insert tb clock0 key buckets) as Hins.
  destruct (getBucket tb clock0 key buckets) as [b m]. cbn [fst snd tokens lastCheck] in *.
  destruct (float64_of_int n <=? _)%float; by rewrite Hins.
Qed.

(** C6. [AllowN] is the check of the specification: on the bucket of the
    key (the stored one, or a full one when the key has none) it computes
    [elapsed = now - lastRefill], sets [tokens] to
    [min(burst, tokens + elapsed * (rpm / 60))], sets [lastRefill] to [now],
    and allows, subtracting [n], exactly when [tokens >= n]; otherwise it
    denies.  [rpm] and [burst] are the configured values, clamped to 1
    when not positive; [Allow] is the check with [n = 1]. *)
Theorem AllowN_is_the_specified_check
    rpm burst cleanupTTL key n clock0 clock1 (buckets : gmap string bucket) :
  AllowN (NewTokenBucket rpm burst cleanupTTL) key n clock0 clock1 buckets =
    (let b := default (fresh (NewTokenBucket rpm burst cleanupTTL) clock0) (buckets !! key) in
     let r := spec_check (clamp1 rpm) (clamp1 burst) n clock1 (to_spec b) in
     (r.1, <[key := of_spec r.2]> buckets))
  ∧ Allow (NewTokenBucket rpm burst cleanupTTL) key clock0 clock1 buckets =
    AllowN (NewTokenBucket rpm burst cleanupTTL) key 1 clock0 clock1 buckets
  ∧ tokens (fresh (NewTokenBucket rpm burst cleanupTTL) clock0) = float64_of_int (clamp1 burst)
  ∧ (0 < rpm → clamp1 rpm = rpm)
  ∧ (0 < burst → clamp1 burst = burst).
Proof.
  split; [|split; [reflexivity|split; [reflexivity|]]].
  - rewrite AllowN_refilled, getBucket_eq. cbn [fst].
    unfold refilled, spec_check, to_spec, of_spec, NewTokenBucket, clamp1.
    cbn [RateLimit.burst RateLimit.rate spec_tokens lastRefill tokens lastCheck].
    destruct (float64_of_int n <=? _)%float; reflexivity.
  - unfold clamp1. split; intros H; destruct (Z.leb_spec rpm 0), (Z.leb_spec burst 0); lia.
Qed.

(** C8. [GetRemaining] and [GetResetTime] are read-only projections: both
    evaluate the refill formula of [AllowN] on the bucket of the key and
    leave every stored bucket's [tokens] and [lastCheck] as they were (a
    key that had no bucket gets the full bucket [getBucket] creates), so
    neither consumes a token.  [GetRemaining] returns the whole tokens of
    the refilled amount; [GetResetTime] returns [now] (as Unix seconds)
    when the refilled bucket is at capacity, and otherwise
    [now + (burst - tokens) / rate]. *)
Theorem GetRemaining_and_GetResetTime_are_read_only
    tb key clock0 clock1 (buckets : gmap string bucket) :
  let b := (getBucket tb clock0 key buckets).1 in
  let buckets' := (getBucket tb clock0 key buckets).2 in
  let t := refilled tb b clock1 in
  GetRemaining tb key clock0 clock1 buckets = (int_of_float64 (Floor t), buckets')
  ∧ GetResetTime tb key clock0 clock1 buckets =
      (if (float64_of_int (burst tb) - t <=? 0)%float then Unix clock1
       else Unix (Add clock1
                   (int_of_float64 ((float64_of_int (burst tb) - t) / rate tb
                                    * float64_of_int Second)%float)),
       buckets')
  ∧ (∀ n, AllowN tb key n clock0 clock1 buckets =
          if (float64_of_int n <=? t)%float then
            (true, <[key := {| tokens := (t - float64_of_int n)%float; lastCheck := clock1 |}]> buckets)
          else
            (false, <[key := {| tokens := t; lastCheck := clock1 |}]> buckets))
  ∧ (∀ k b0, buckets !! k = Some b0 → buckets' !! k = Some b0)
  ∧ (∀ b0, buckets !! key = Some b0 → b = b0 ∧ buckets' = buckets)
  ∧ (buckets !! key = None →
     b = fresh tb clock0 ∧ buckets' = <[key := fresh tb clock0]> buckets).
Proof.
  intros b buckets' t. subst b buckets' t.
  split; [|split; [|split; [|split; [|split]]]].
  - unfold GetRemaining, refilled.
    by destruct (getBucket tb clock0 key buckets) as [b m].
  - unfold GetResetTime, refilled.
    destruct (getBucket tb clock0 key buckets) as [b m]. cbn [fst snd].
    by destruct (_ <=? 0)%float.
  - intros n. apply AllowN_refilled.
  - intros k b0 Hk. rewrite getBucket_eq. cbn [snd].
    destruct (buckets !! key) eqn:Hkey; [done|].
    rewrite lookup_insert_ne; [done|]. intros ->. congruence.
  - intros b0 Hkey. rewrite getBucket_eq, Hkey. done.
  - intros Hkey. rewrite getBucket_eq, Hkey. done.
Qed.

(** C7 on the code: the refill is computed in binary64, and the product
    [elapsed * rate] can fall short of [burst] after exactly [burst / rate]
    seconds.  A limiter of 11 requests per minute and burst 55 refills in
    [55 / (11 / 60) = 300] seconds, in exact arithmetic and in binary64
    alike.  Fifty-five [Allow] calls at one clock
    reading succeed and the next is denied; [GetResetTime] then names the
    reading 300 seconds later as the time of the full refill; at that
    reading [GetRemaining] returns 54. *)
Theorem GetRemaining_is_short_of_burst_after_full_refill_time :
  let tb := NewTokenBucket 11 55 (300 * Second) in
  let start := at_ns 1700000000000000000 in
  let later := at_ns (1700000000000000000 + 300 * Second) in
  burst tb * 60 = 300 * 11
  ∧ (float64_of_int (burst tb) / rate tb)%float = 300%float
  ∧ (run tb (repeat (CallAllow "k", start, start) 55 ++
             [(CallAllow "k", start, start);
              (CallGetResetTime "k", start, start);
              (CallGetRemaining "k", later, later)])%list ∅).1
    = (repeat (Bool true) 55 ++ [Bool false; Int 1700000300; Int 54])%list
  ∧ refilled tb {| tokens := 0; lastCheck := start |} later = 0x1.b7fffffffffffp+5%float
  ∧ (refilled tb {| tokens := 0; lastCheck := start |} later <? 55)%float = true.
Proof. vm_compute. repeat split. Qed.

(** The same shortfall at other limits: from an empty bucket, exactly
    [wait = burst / rate] seconds later [GetRemaining] returns [burst - 1]. *)
Example other_limits_short_of_burst :
  Forall (λ '(rpm, burst, wait),
     burst * 60 = wait * rpm ∧
     (GetRemaining (NewTokenBucket rpm burst (300 * Second)) "k"
        (at_ns (wait * Second)) (at_ns (wait * Second))
        {[ "k" := {| tokens := 0; lastCheck := at_ns 0 |} ]}).1 = burst - 1)
    [(11, 55, 300); (21, 63, 180); (65, 117, 108); (69, 115, 100)].
Proof. repeat constructor; vm_compute; reflexivity. Qed.

(** A negative [n] passes the comparison and is "subtracted": the stored
    token count leaves the range [0, burst] until the next refill clamps it. *)
Example AllowN_negative_n_overfills :
  AllowN (NewTokenBucket 10 5 (300 * Second)) "k" (-5) (at_ns 0) (at_ns 0) ∅
  = (true, {[ "k" := {| tokens := 10; lastCheck := at_ns 0 |} ]}).
Proof. vm_compute. reflexivity. Qed.

(** The three tiers of the README (10/5, 60/20, 120/50): [burst] calls at
    one clock reading succeed, the next is denied, and [burst / rate]
    seconds later [GetRemaining] returns [burst]. *)
Example README_tiers_refill :
  Forall (λ '(rpm, burst, wait),
     (run (NewTokenBucket rpm burst (300 * Second))
          (repeat (CallAllow "ip", at_ns 0, at_ns 0) (Z.to_nat burst) ++
           [(CallAllow "ip", at_ns 0, at_ns 0);
            (CallGetRemaining "ip", at_ns (wait * Second), at_ns (wait * Second))])%list ∅).1
     = (repeat (Bool true) (Z.to_nat burst) ++ [Bool false; Int burst])%list)
    [(10, 5, 30); (60, 20, 20); (120, 50, 25)].
Proof. repeat constructor; vm_compute; reflexivity. Qed.

End Limiter.

(** ** Concrete runs *)
Section Runs.
Import TS.

(** Membership in a concrete store, by evaluating its decision procedure. *)
Ltac decide_by_computation := apply (bool_decide_unpack _); vm_compute; exact I.

Lemma presents_signed_request signature nonce timestamp ts :
  signature ≠ "" → nonce ≠ "" → timestamp ≠ "" →
  JS.parseInt timestamp (Some 10) = JS.Num ts → 0 < ts →
  presents (signed_request signature nonce timestamp) signature nonce ts.
Proof.
  intros Hs Hn Ht Hp Hpos. unfold presents, signed_request. cbn [headers].
  split; [by simplify_map_eq|]. split; [done|].
  split; [by simplify_map_eq|]. split; [done|].
  split; [|done]. exists timestamp. split; [by simplify_map_eq|]. done.
Qed.

Lemma testConfig_loaded :
  CONFIG (H := mockEthers) {[ "RECIPIENT_ADDRESS" := "0xTestRecipient" ]} = Some testConfig.
Proof. vm_compute. reflexivity. Qed.



(** C2, a counterexample: a nonce is issued, two calls present it with a
    signature that does not recover, and none of the two succeeds; the
    nonce is still in the store afterwards. *)
Lemma issued_nonce_presented_twice_without_success :
  let issued := createPaymentContext testConfig None (constantBytes Byte.x00)
                  1700000000000 emptyState in
  let calls := [(issued.1, "0xInvalidSig"); (issued.1, "0xInvalidSig")] in
  nonce issued.1 = "00000000-0000-4000-8000-000000000000"
  ∧ bool_decide (nonce issued.1 ∈ nonceStore issued.2) = true
  ∧ successes (verifyAll (H := mockEthers) testConfig calls issued.2).1 = 0%nat
  ∧ successes (verifyAll (H := mockEthers) testConfig calls issued.2).1 ≠ 1%nat
  ∧ bool_decide (nonce issued.1 ∈
                 nonceStore (verifyAll (H := mockEthers) testConfig calls issued.2).2) = true.
Proof. vm_compute. repeat split; discriminate. Qed.

Lemma nonce_single_use_witness :
  let st := {| nonceStore := {[ "nonce-123" ]}; console := [] |} in
  let ctx := retry_context testConfig "nonce-123" (JS.Num 1700000000) in
  let calls := [(ctx, "0xInvalidSig"); (ctx, "0xValidSig"); (ctx, "0xValidSig")] in
  "nonce-123" ∈ nonceStore st
  ∧ Forall (λ c, nonce c.1 = "nonce-123") calls
  ∧ successes (verifyAll (H := mockEthers) testConfig calls st).1 = 1%nat.
Proof.
  intros st ctx calls.
  assert ("nonce-123" ∈ nonceStore st) as Hin by (decide_by_computation).
  assert (Forall (λ c, nonce c.1 = "nonce-123") calls) as Hall by (repeat constructor).
  split; [exact Hin|]. split; [exact Hall|].
  destruct (nonce_consumed_by_first_recovering_call (E := mockEthers)
              testConfig st "nonce-123" calls Hin Hall) as [Hcount _].
  exact (eq_trans Hcount eq_refl).
Defined.

(** C3, a counterexample: with a 300 second expiry window and 60 seconds of
    clock skew, at clock reading 1700000000 a claim stamped one second
    before [now - expirySeconds] and a claim stamped one second after
    [now + clockSkewSeconds] are both accepted. *)
Lemma out_of_window_timestamps_are_accepted :
  let now := 1700000000 in
  let expirySeconds := 300 in
  let clockSkewSeconds := 60 in
  let st := {| nonceStore := {[ "nonce-123" ]}; console := [] |} in
  JS.parseInt "1699999699" (Some 10) = JS.Num (now - expirySeconds - 1)
  ∧ JS.parseInt "1700000061" (Some 10) = JS.Num (now + clockSkewSeconds + 1)
  ∧ (x402Middleware (H := mockEthers) testConfig (constantBytes Byte.x00) (now * 1000)
       (signed_request "0xValidSig" "nonce-123" "1699999699") st).1 = Next (Some "0xTestUser")
  ∧ (x402Middleware (H := mockEthers) testConfig (constantBytes Byte.x00) (now * 1000)
       (signed_request "0xValidSig" "nonce-123" "1700000061") st).1 = Next (Some "0xTestUser")
  ∧ (verifyPayment (H := mockEthers) testConfig
       (retry_context testConfig "nonce-123" (JS.Num (now - expirySeconds - 1)))
       "0xValidSig" st).1 = {| isValid := true; error := None; signer := Some "0xTestUser" |}
  ∧ (verifyPayment (H := mockEthers) testConfig
       (retry_context testConfig "nonce-123" (JS.Num (now + clockSkewSeconds + 1)))
       "0xValidSig" st).1 = {| isValid := true; error := None; signer := Some "0xTestUser" |}.
Proof. vm_compute. repeat split. Qed.

Lemma timestamp_at_the_boundary_witness :
  let now := 1700000000 in
  let expirySeconds := 300 in
  let st := {| nonceStore := {[ "nonce-123" ]}; console := [] |} in
  JS.parseInt "1699999700" (Some 10) = JS.Num (now - expirySeconds)
  ∧ (x402Middleware (H := mockEthers) testConfig (constantBytes Byte.x00) (now * 1000)
       (signed_request "0xValidSig" "nonce-123" "1699999700") st).1 = Next (Some "0xTestUser").
Proof.
  intros now expirySeconds st. split; [vm_compute; reflexivity|].
  refine (proj1 (timestamp_is_not_compared_with_the_clock (E := mockEthers)
            testConfig (constantBytes Byte.x00) (now * 1000)
            (signed_request "0xValidSig" "nonce-123" "1699999700") st
            "0xValidSig" "nonce-123" 1699999700 "0xTestUser" _ _ _)).
  - apply presents_signed_request; try discriminate; [vm_compute; reflexivity | lia].
  - decide_by_computation.
  - vm_compute. reflexivity.
Defined.

(** C4, a counterexample: with a 300 second expiry window and 60 seconds of
    clock skew, a nonce issued by a 402 and presented 361 seconds later is
    consumed successfully; and three challenges an hour apart leave three
    entries in the store. *)
Lemma nonce_older_than_the_window_is_consumed :
  let expirySeconds := 300 in
  let clockSkewSeconds := 60 in
  let issuedAt := 1700000000000 in
  let later := issuedAt + (expirySeconds + clockSkewSeconds + 1) * 1000 in
  let st1 := (x402Middleware (H := mockEthers) testConfig (constantBytes Byte.x00)
                issuedAt bareRequest emptyState).2 in
  let retry := signed_request "0xValidSig" "00000000-0000-4000-8000-000000000000"
                 "1700000361" in
  nonceStore st1 = {[ "00000000-0000-4000-8000-000000000000" ]}
  ∧ (x402Middleware (H := mockEthers) testConfig (constantBytes Byte.x01) later retry st1).1
    = Next (Some "0xTestUser")
  ∧ size (nonceStore
            (serveAll (H := mockEthers) testConfig
               [(constantBytes Byte.x00, issuedAt, bareRequest);
                (constantBytes Byte.x01, issuedAt + 3600000, bareRequest);
                (constantBytes Byte.x02, issuedAt + 7200000, bareRequest)] emptyState).2)
    = 3%nat.
Proof. vm_compute. repeat split. Qed.

Lemma nonce_store_has_no_expiry_witness :
  let st := {| nonceStore := {[ "nonce-123" ]}; console := [] |} in
  let reqs := [(constantBytes Byte.x00, 1700000000000, bareRequest);
               (constantBytes Byte.x01, 1800000000000,
                signed_request "0xValidSig" "nonce-456" "1800000000")] in
  "nonce-123" ∈ nonceStore (serveAll (H := mockEthers) testConfig reqs st).2
  ∧ (x402Middleware (H := mockEthers) testConfig (constantBytes Byte.x02) 1900000000000
       (signed_request "0xValidSig" "nonce-123" "1700000000")
       (serveAll (H := mockEthers) testConfig reqs st).2).1 = Next (Some "0xTestUser").
Proof.
  intros st reqs.
  assert ("nonce-123" ∈ nonceStore st) as Hin by (decide_by_computation).
  assert (Forall (λ e : (nat → Byte.byte) * Z * Request,
                    headers e.2 !! "x-402-nonce" ≠ Some "nonce-123") reqs) as Hall.
  { repeat constructor; vm_compute; discriminate. }
  destruct (nonce_store_has_no_expiry (E := mockEthers) testConfig reqs st "nonce-123" Hin Hall)
    as (Hkept & Haccept & _).
  split; [exact Hkept|].
  apply (Haccept _ _ _ "0xValidSig" 1700000000 "0xTestUser").
  - apply presents_signed_request; try discriminate; [vm_compute; reflexivity | lia].
  - vm_compute. reflexivity.
Defined.

(** C5, a counterexample: a call with a signature that recovers deletes the
    presented nonce from the module's store, and a call whose signature
    does not recover writes to the console. *)
Lemma verifyPayment_changes_the_module_state :
  let st := {| nonceStore := {[ "nonce-123" ]}; console := [] |} in
  let ctx := retry_context testConfig "nonce-123" (JS.Num 1700000000) in
  verifyPayment (H := mockEthers) testConfig ctx "0xValidSig" st =
    ({| isValid := true; error := None; signer := Some "0xTestUser" |},
     {| nonceStore := ∅; console := [] |})
  ∧ bool_decide ("nonce-123" ∈ nonceStore st) = true
  ∧ bool_decide ("nonce-123" ∈
                 nonceStore (verifyPayment (H := mockEthers) testConfig ctx "0xValidSig" st).2)
    = false
  ∧ console (verifyPayment (H := mockEthers) testConfig ctx "0xInvalidSig" st).2
    = ["Payment verification failed:"].
Proof. vm_compute. repeat split. Qed.

Lemma failed_recovery_witness :
  let st := {| nonceStore := {[ "nonce-123" ]}; console := [] |} in
  let ctx := retry_context testConfig "nonce-123" (JS.Num 1700000000) in
  let st' := (verifyPayment (H := mockEthers) testConfig ctx "0xInvalidSig" st).2 in
  isValid (verifyPayment (H := mockEthers) testConfig ctx "0xInvalidSig" st).1 = false
  ∧ nonceStore st' = nonceStore st
  ∧ (verifyPayment (H := mockEthers) testConfig ctx "0xValidSig" st').1 =
      {| isValid := true; error := None; signer := Some "0xTestUser" |}.
Proof.
  intros st ctx st'.
  assert (nonce ctx ∈ nonceStore st) as Hin by (decide_by_computation).
  destruct (failed_recovery_does_not_consume_the_nonce (E := mockEthers)
              testConfig ctx "0xInvalidSig" st Hin eq_refl)
    as (Hinvalid & Hkept & _ & Hretry & _).
  split; [exact Hinvalid|]. split; [exact Hkept|].
  apply Hretry. reflexivity.
Defined.

(** C9 on a service started with the default price: the 402 of a request
    without headers carries the UUID drawn for it and the amount "0.001". *)
Lemma challenge_witness :
  ∃ ctx st',
    x402Middleware (H := mockEthers) testConfig (constantBytes Byte.x00) 1700000000000
      bareRequest emptyState =
      (Respond {| status := 402;
                  body := PaymentRequired "Payment Required"
                    "Please sign the payment context and retry with X-402-Signature and X-402-Nonce headers."
                    ctx |}, st')
    ∧ nonce ctx = "00000000-0000-4000-8000-000000000000"
    ∧ amount ctx = "0.001".
Proof.
  destruct unchallenged_request_gets_402_with_fresh_context as [_ Hts].
  destruct (Hts mockEthers {[ "RECIPIENT_ADDRESS" := "0xTestRecipient" ]} testConfig
              (constantBytes Byte.x00) 1700000000000 bareRequest emptyState
              testConfig_loaded (or_introl eq_refl))
    as (ctx & st' & Hx & Hn & _ & _ & _ & _ & Hamount).
  exists ctx, st'. split; [exact Hx|]. split.
  - rewrite Hn. vm_compute. reflexivity.
  - apply Hamount. vm_compute. reflexivity.
Defined.

End Runs.

(** ** Sanity checks of the primitives *)
Example parseInt_decimal : JS.parseInt "1700000000" (Some 10) = JS.Num 1700000000.
Proof. reflexivity. Qed.

Example parseInt_prefix : JS.parseInt "  -12abc" (Some 10) = JS.Num (-12).
Proof. reflexivity. Qed.

Example parseInt_NaN : JS.parseInt "abc" (Some 10) = JS.NaN.
Proof. reflexivity. Qed.

Example parseInt_hex : JS.parseInt "0x10" None = JS.Num 16.
Proof. reflexivity. Qed.

Example parseInt_rounds_to_double :
  JS.parseInt "9007199254740993" (Some 10) = JS.Num 9007199254740992.
Proof. reflexivity. Qed.

Example uuid_of_ff :
  Uuid.uuidv4 (fun _ => Byte.xff) = "ffffffff-ffff-4fff-bfff-ffffffffffff".
Proof. reflexivity. Qed.

Example uuid_shape_of_README_nonce :
  Uuid.uuid_shaped "9c311e31-eb30-420a-bced-c0d68bc89cea" = true.
Proof. reflexivity. Qed.

Example uuid_shape_rejects : Uuid.uuid_shaped "nonce-123" = false.
Proof. reflexivity. Qed.

Example Seconds_of_a_duration : RateLimit.Seconds 1500000000 = 1.5%float.
Proof. reflexivity. Qed.

Example Floor_negative : RateLimit.Floor (-0.5)%float = (-1)%float.
Proof. reflexivity. Qed.

(** * Further properties of the code *)

(** ** The middleware's effect on the nonce store *)
Section MiddlewareEffects.
Import TS.
Context `{E : Ethers}.


(** X1. State effects of one request on the nonce store: a 402 adds
    exactly the nonce drawn for it; a 400 and a 403 leave the store as it
    was (a rejected attempt neither consumes nor issues a nonce); a request
    handed on to the handler removes exactly the nonce it presented, which
    was in the store, and sets the wallet. *)
Theorem x402Middleware_store_effects cfg rnds now_ms req st :
  match x402Middleware cfg rnds now_ms req st with
  | (Respond r, st') =>
      (status r = 402 ∧ nonceStore st' = nonceStore st ∪ {[Uuid.uuidv4 rnds]})
      ∨ ((status r = 400 ∨ status r = 403) ∧ nonceStore st' = nonceStore st)
  | (Next wallet, st') =>
      ∃ n, headers req !! "x-402-nonce" = Some n ∧ n ∈ nonceStore st
           ∧ nonceStore st' = nonceStore st ∖ {[n]} ∧ is_Some wallet
  end.
Proof.
  destruct (x402_cases cfg rnds now_ms req st) as [Hc|[(d & Hc)|(sg & nn & ts & Hp)]].
  - rewrite x402_unchallenged by done. left. split; reflexivity.
  - rewrite Hc. right. split; [by left | reflexivity].
  - rewrite (x402_verifies _ _ _ _ _ _ _ _ Hp).
    set (ctx := retry_context cfg nn (JS.Num ts)).
    destruct (decide (nn ∈ nonceStore st)) as [Hin|Hout].
    + destruct (recovered cfg ctx sg) as [addr|] eqn:Hr.
      * rewrite (verifyPayment_recovered _ _ _ _ addr) by done. cbn.
        exists nn. destruct Hp as (_ & _ & Hn & _). eauto.
      * rewrite verifyPayment_thrown by done. cbn. right. split; [by right | reflexivity].
    + rewrite verifyPayment_unknown by done. cbn. right. split; [by right | reflexivity].
Qed.




End MiddlewareEffects.

(** ** Issuing and redeeming *)
Section IssueRedeem.
Import TS.
Context `{E : Ethers}.

(** X3. Issue, then redeem: after [createPaymentContext], at whatever
    price the context was issued, a request that presents its nonce with
    a signature recovering over the context the middleware rebuilds (the
    configured default price, the timestamp of the header) is handed on
    with the signer as wallet, and the store is what it was before the
    issue, without that nonce.  The store keeps the nonce only: the price
    and the timestamp of the issued context play no part. *)
Theorem issued_nonce_is_redeemed_once
    cfg price rnds now_ms st rnds' now_ms' retry signature ts addr :
  let issued := createPaymentContext cfg price rnds now_ms st in
  presents retry signature (nonce issued.1) ts →
  recovered cfg (retry_context cfg (nonce issued.1) (JS.Num ts)) signature = Some addr →
  ∃ st2,
    x402Middleware cfg rnds' now_ms' retry issued.2 = (Next (Some addr), st2)
    ∧ nonceStore st2 = nonceStore st ∖ {[nonce issued.1]}
    ∧ amount (retry_context cfg (nonce issued.1) (JS.Num ts)) = DEFAULT_PRICE (PAYMENT cfg).
Proof.
  intros issued Hp Hr. subst issued. cbn [createPaymentContext fst snd nonce] in *.
  rewrite (x402_verifies _ _ _ _ _ _ _ _ Hp).
  rewrite (verifyPayment_recovered _ _ _ _ addr); [|cbn; set_solver|done].
  eexists. split; [reflexivity|]. cbn. split; [set_solver | reflexivity].
Qed.

(** X6. Unanswered challenges accumulate: a run of requests that lack the
    signature or the nonce header, drawing nonces that are pairwise
    distinct and not yet in the store, is answered with 402 throughout and
    leaves the store larger by one entry per request, whatever the clock
    readings of the requests are. *)
Theorem unanswered_challenges_accumulate cfg reqs st :
  Forall (λ e : (nat → Byte.byte) * Z * Request,
            JS.truthy (headers e.2 !! "x-402-signature") = false ∨
            JS.truthy (headers e.2 !! "x-402-nonce") = false) reqs →
  NoDup (drawn <$> reqs) →
  Forall (λ e, drawn e ∉ nonceStore st) reqs →
  size (nonceStore (serveAll cfg reqs st).2) = (size (nonceStore st) + length reqs)%nat
  ∧ Forall (λ o, ∃ r, o = Respond r ∧ status r = 402) (serveAll cfg reqs st).1
  ∧ nonceStore (serveAll cfg reqs st).2 = nonceStore st ∪ list_to_set (drawn <$> reqs).
Proof.
  intros Hbare. revert st.
  induction Hbare as [|[[rnds now_ms] req] rest Hb _ IH]; intros st Hnd Hnew; cbn [serveAll].
  - cbn. split; [lia|]. split; [constructor | set_solver].
  - cbn [snd] in Hb. rewrite x402_unchallenged by done.
    set (st1 := (createPaymentContext cfg None rnds now_ms st).2).
    assert (nonceStore st1 = nonceStore st ∪ {[Uuid.uuidv4 rnds]}) as Hst1 by reflexivity.
    rewrite fmap_cons in Hnd. apply NoDup_cons in Hnd as [Hfresh Hnd].
    apply Forall_cons in Hnew as [Hnew1 Hnew].
    unfold drawn at 1 in Hfresh. cbn [fst] in Hfresh. unfold drawn in Hnew1. cbn [fst] in Hnew1.
    assert (Forall (λ e, drawn e ∉ nonceStore st1) rest) as Hnew'.
    { apply Forall_forall. intros e He. rewrite Hst1.
      rewrite Forall_forall in Hnew. specialize (Hnew e He).
      intros [?|Heq%elem_of_singleton]%elem_of_union; [done|].
      apply Hfresh. apply list_elem_of_fmap. exists e. split; [by rewrite <- Heq | done]. }
    destruct (IH st1 Hnd Hnew') as (Hsize & Hall & Hset).
    destruct (serveAll cfg rest st1) as [os st2]. cbn [fst snd] in *.
    split; [|split].
    + rewrite Hsize, Hst1. rewrite size_union by set_solver.
      rewrite size_singleton. cbn [length]. lia.
    + constructor; [|done]. eexists. split; reflexivity.
    + rewrite Hset, Hst1. rewrite fmap_cons. cbn [list_to_set]. unfold drawn at 2. cbn [fst].
      set_solver.
Qed.

End IssueRedeem.

(** ** The timestamp header *)
Section TimestampHeader.
Import TS.
Context `{E : Ethers}.

Lemma digits_prefix_stops R s c rest acc :
  JS.digit_of R c = None →
  JS.digits_prefix R (s ++ String c rest) acc = JS.digits_prefix R s acc.
Proof.
  intros Hc. revert acc. induction s as [|a s IH]; intros acc.
  - change ("" ++ String c rest)%string with (String c rest).
    cbn [JS.digits_prefix]. by rewrite Hc.
  - change (String a s ++ String c rest)%string with (String a (s ++ String c rest)).
    cbn [JS.digits_prefix].
    destruct (JS.digit_of R a); [apply IH | reflexivity].
Qed.

Lemma trimStart_app s t :
  JS.trimStart s ≠ "" → JS.trimStart (s ++ t) = (JS.trimStart s ++ t)%string.
Proof.
  induction s as [|a s IH]; [done|].
  change (String a s ++ t)%string with (String a (s ++ t)).
  cbn [JS.trimStart].
  destruct (JS.is_StrWhiteSpaceChar a); [apply IH | reflexivity].
Qed.

(** [parseInt] in radix 10, step by step. *)
Lemma parseInt10_eq h :
  JS.parseInt h (Some 10) =
  (let '(neg, s1) := split_sign (JS.trimStart h) in
   match JS.digits_prefix 10 s1 None with
   | None => JS.NaN
   | Some v =>
       match JS.round_to_double v with
       | JS.Num m => JS.Num (if neg then - m else m)
       | JS.Infinity => if neg then JS.NegInfinity else JS.Infinity
       | other => other
       end
   end).
Proof. reflexivity. Qed.

(** Taking the sign off commutes with appending to a non-empty string. *)
Lemma split_sign_app a s t :
  split_sign (String a (s ++ t)) =
  (let '(neg, s1) := split_sign (String a s) in (neg, (s1 ++ t)%string)).
Proof. destruct a as [[] [] [] [] [] [] [] []]; reflexivity. Qed.

Lemma parseInt_trailing h c rest z :
  JS.parseInt h (Some 10) = JS.Num z →
  JS.digit_of 10 c = None →
  JS.parseInt (h ++ String c rest) (Some 10) = JS.Num z.
Proof.
  intros Hp Hc. rewrite parseInt10_eq in *.
  destruct (JS.trimStart h) as [|a s0] eqn:Ht.
  { cbn in Hp. discriminate. }
  rewrite trimStart_app by (rewrite Ht; discriminate).
  rewrite Ht. change (String a s0 ++ String c rest)%string with (String a (s0 ++ String c rest)).
  rewrite split_sign_app.
  destruct (split_sign (String a s0)) as [neg s1].
  rewrite digits_prefix_stops by done. exact Hp.
Qed.

(** X4. Only the numeric prefix of the timestamp header counts: a header
    that parses to an integer can be followed by any text that starts
    with a non-digit, and the middleware answers the request, and leaves
    the state, exactly as for the header without that text. *)
Theorem timestamp_header_is_read_up_to_the_first_non_digit
    cfg rnds now_ms req st h z c rest :
  headers req !! "x-402-timestamp" = Some h →
  JS.parseInt h (Some 10) = JS.Num z →
  JS.digit_of 10 c = None →
  x402Middleware cfg rnds now_ms (with_timestamp req (h ++ String c rest)) st =
  x402Middleware cfg rnds now_ms req st.
Proof.
  intros Hh Hp Hc. unfold x402Middleware, with_timestamp. cbn [headers].
  rewrite !lookup_insert_ne by done. rewrite lookup_insert_eq, Hh.
  assert (h ≠ "") as Hne by (intros ->; discriminate).
  assert ((h ++ String c rest)%string ≠ "") as Hne' by (destruct h; discriminate).
  rewrite (truthy_Some _ Hne'), (truthy_Some _ Hne). cbn [default from_option id].
  rewrite (parseInt_trailing h c rest z), Hp by done. reflexivity.
Qed.

Lemma digit_of_nonneg R c d : JS.digit_of R c = Some d → 0 ≤ d.
Proof.
  unfold JS.digit_of. intros H. repeat case_match; simplify_eq; lia.
Qed.

Lemma digits_prefix_nonneg R s acc v :
  0 ≤ R → 0 ≤ default 0 acc →
  JS.digits_prefix R s acc = Some v → 0 ≤ v.
Proof.
  intros HR. revert acc. induction s as [|a s IH]; intros acc Hacc; cbn [JS.digits_prefix].
  - intros ->. done.
  - destruct (JS.digit_of R a) as [d|] eqn:Hd.
    + apply IH. cbn [default from_option id]. apply digit_of_nonneg in Hd. nia.
    + intros ->. done.
Qed.

Lemma round_to_double_nonneg z m :
  0 ≤ z → JS.round_to_double z = JS.Num m → 0 ≤ m.
Proof.
  unfold JS.round_to_double. intros Hz.
  destruct (z <? 2 ^ 53); [by intros [= ->]|].
  cbv zeta. destruct (2 ^ 1024 <=? _); [done|]. intros [= <-].
  apply Z.shiftl_nonneg.
  pose proof (proj2 (Z.shiftr_nonneg z (Z.log2 z - 52)) Hz).
  destruct ((_ <? _) || _); lia.
Qed.

(** X5. A timestamp header whose first character after leading white
    space is a minus sign is never accepted: a request that carries a
    signature and a nonce is answered 400 "Invalid X-402-Timestamp header",
    before verification and without touching the state. *)
Theorem negative_timestamp_header_is_refused
    cfg rnds now_ms req st h r :
  JS.truthy (headers req !! "x-402-signature") = true →
  JS.truthy (headers req !! "x-402-nonce") = true →
  headers req !! "x-402-timestamp" = Some h →
  JS.trimStart h = String "-" r →
  x402Middleware cfg rnds now_ms req st =
  (Respond {| status := 400;
              body := Failure "Invalid timestamp" (Some "Invalid X-402-Timestamp header") |},
   st).
Proof.
  intros Hs Hn Hh Ht. unfold x402Middleware. rewrite Hs, Hn, Hh. cbn [negb orb].
  assert (h ≠ "") as Hne by (intros ->; discriminate).
  rewrite truthy_Some by done. cbn [negb default from_option id].
  assert (negb (JS.Number_isInteger (JS.parseInt h (Some 10)))
          || JS.le_zero (JS.parseInt h (Some 10)) = true) as ->; [|reflexivity].
  rewrite parseInt10_eq, Ht. change (split_sign (String "-" r)) with (true, r).
  cbv beta iota.
  destruct (JS.digits_prefix 10 r None) as [v|] eqn:Hv; [|reflexivity].
  apply digits_prefix_nonneg in Hv; [|lia|cbn; lia].
  destruct (JS.round_to_double v) as [| | |m] eqn:Hm; try reflexivity.
  apply round_to_double_nonneg in Hm; [|done].
  cbn. apply Z.leb_le. lia.
Qed.

End TimestampHeader.

(** ** Loading the configuration *)
Section Configuration.
Import TS.
Context `{E : Ethers}.

Lemma isHexString_shape value len :
  isHexString value len = true →
  (∃ r, value = String "0" (String "x" r) ∧ all_hex r = true)
  ∧ Z.of_nat (String.length value) = 2 + 2 * len.
Proof.
  unfold isHexString. intros H.
  destruct value as [|a [|b r]]; try discriminate.
  - destruct a as [[] [] [] [] [] [] [] []]; discriminate.
  - destruct a as [[] [] [] [] [] [] [] []]; try discriminate;
      destruct b as [[] [] [] [] [] [] [] []]; try discriminate.
    apply andb_true_iff in H as [Hhex Hlen]. apply Z.eqb_eq in Hlen.
    split; [eauto | done].
Qed.

(** X7. The private key of the environment is used only when it is "0x"
    followed by exactly 64 hex digits.  Any other key (empty, without the
    prefix, of another length) is passed over without consulting the wallet
    constructor: the configuration loads, and its recipient is the
    RECIPIENT_ADDRESS of the environment, or empty.  Loading fails exactly
    when a key of that form is rejected by the wallet constructor. *)
Theorem private_key_is_used_only_when_0x_and_64_hex_digits (env : gmap string string) :
  let key := JS.or_default (env !! "SERVER_WALLET_PRIVATE_KEY") "" in
  (isHexString key 32 = true →
     String.length key = 66%nat ∧ ∃ r, key = String "0" (String "x" r) ∧ all_hex r = true)
  ∧ (isHexString key 32 = false →
     ∃ cfg, CONFIG env = Some cfg ∧
       RECIPIENT_ADDRESS (PAYMENT cfg) = JS.or_default (env !! "RECIPIENT_ADDRESS") "")
  ∧ (CONFIG env = None ↔ isHexString key 32 = true ∧ Wallet_address key = None)
  ∧ (∀ addr, isHexString key 32 = true → Wallet_address key = Some addr → addr ≠ "" →
     ∃ cfg, CONFIG env = Some cfg ∧ RECIPIENT_ADDRESS (PAYMENT cfg) = addr).
Proof.
  intros key. split; [|split; [|split]].
  - intros H. apply isHexString_shape in H as [Hr Hl]. split; [lia | done].
  - intros H. unfold CONFIG. fold key. rewrite H.
    destruct (negb (String.eqb key "")); eexists; split; reflexivity.
  - unfold CONFIG. fold key.
    destruct (isHexString key 32) eqn:Hk.
    + assert (negb (String.eqb key "") = true) as ->.
      { apply isHexString_shape in Hk as [(r & -> & _) _]. reflexivity. }
      destruct (Wallet_address key); split; try done. intros [_ ?]; done.
    + destruct (negb (String.eqb key "")); split; try done; intros [? _]; done.
  - intros addr Hk Hw Hne. unfold CONFIG. fold key. rewrite Hk, Hw.
    assert (negb (String.eqb key "") = true) as ->.
    { apply isHexString_shape in Hk as [(r & -> & _) _]. reflexivity. }
    eexists. split; [reflexivity|]. cbn.
    destruct (String.eqb_spec addr ""); done.
Qed.

End Configuration.

(** ** The Go handler *)
Section GoHandler.
Import Gateway.

(** X8. The handler answers 200 with a summary exactly when the request
    carries both headers, the verifier answered [IsValid] for the request
    built from the server's own recipient, token, amount and chain id with
    the client's nonce and signature, the body is a summarize request, and
    the provider returned that summary.  A 200 never comes about otherwise. *)
Theorem summary_is_served_only_to_verified_requests `{S : Services} env rnds c :
  (code (handleSummarize env rnds c) = 200 →
     ∃ summary, handleSummarize env rnds c = {| code := 200; obj := Result summary |})
  ∧ ∀ summary,
      handleSummarize env rnds c = {| code := 200; obj := Result summary |} ↔
      GetHeader c "X-402-Signature" ≠ "" ∧ GetHeader c "X-402-Nonce" ≠ "" ∧
      (∃ verifyResp,
         postVerify (verifyEndpoint env) (verifyRequestOf env c) = Some verifyResp ∧
         IsValid verifyResp = true) ∧
      (∃ req, json c = Some req ∧ callOpenRouter (Text req) = inl summary).
Proof.
  rewrite handleSummarize_eq.
  destruct (String.eqb_spec (GetHeader c "X-402-Signature") "") as [Hs|Hs];
    [|destruct (String.eqb_spec (GetHeader c "X-402-Nonce") "") as [Hn|Hn]]; cbn [orb].
  1,2: split; [done|]; intros summary; split; [done|]; intros (? & ? & _); done.
  destruct (postVerify _ _) as [vr|].
  2:{ split; [done|]. intros summary. split; [done|]. intros (_ & _ & (? & ? & _) & _). done. }
  destruct (IsValid vr) eqn:Hv; cbn [negb].
  2:{ split; [done|]. intros summary. split; [done|].
      intros (_ & _ & (vr' & [= <-] & Hv') & _). congruence. }
  destruct (json c) as [req|].
  2:{ split; [done|]. intros summary. split; [done|]. intros (_ & _ & _ & (? & ? & _)). done. }
  destruct (callOpenRouter (Text req)) as [s|e] eqn:Hai.
  - split; [eauto|]. intros summary. split.
    + intros [= <-]. eauto 10.
    + intros (_ & _ & _ & (req' & [= <-] & Hai')). congruence.
  - split; [done|]. intros summary. split; [done|].
    intros (_ & _ & _ & (req' & [= <-] & Hai')). congruence.
Qed.

(** X9. Without the verifier's approval nothing of the request's body or
    of the provider counts: two handlers that share the verifier, serving
    two requests with the same headers, give the same answer to a request
    that is not approved, and that answer is a 402, a 500 (verifier not
    reachable) or a 403.  A malformed body is reported (400) only to an
    approved request. *)
Theorem unapproved_request_is_answered_before_body_and_provider
    (S1 S2 : Services) env rnds c1 c2 :
  @postVerify S1 = @postVerify S2 →
  header c1 = header c2 →
  approved (H := S1) env c1 = false →
  @handleSummarize S1 env rnds c1 = @handleSummarize S2 env rnds c2
  ∧ (code (@handleSummarize S1 env rnds c1) = 402
     ∨ code (@handleSummarize S1 env rnds c1) = 500
     ∨ code (@handleSummarize S1 env rnds c1) = 403).
Proof.
  intros Hpv Hh Happ. rewrite !handleSummarize_eq.
  unfold approved, verifyRequestOf, GetHeader in *. rewrite <- Hh, <- Hpv in *.
  destruct (String.eqb (default "" (header c1 !! "X-402-Signature")) ""); cbn [orb negb andb] in *.
  { split; [reflexivity | by left]. }
  destruct (String.eqb (default "" (header c1 !! "X-402-Nonce")) ""); cbn [orb negb andb] in *.
  { split; [reflexivity | by left]. }
  destruct (postVerify _ _) as [vr|]; [|split; [reflexivity | right; by left]].
  rewrite Happ. cbn [negb]. split; [reflexivity | right; by right].
Qed.

End GoHandler.

(** ** The provider call *)
Section Provider.
Import OpenRouter.
Context `{C : Client}.

Lemma index_lookup (m : gmap string value) key v :
  m !! key = Some v → index (Some m) key = v.
Proof. intros H. unfold index. by rewrite H. Qed.

Lemma index_inv result key v :
  index result key = v → v ≠ Nil →
  ∃ m, result = Some m ∧ m !! key = Some v.
Proof.
  unfold index. intros H Hv. destruct result as [m|]; [|congruence].
  exists m. split; [done|]. destruct (m !! key); cbn in H; congruence.
Qed.

(** X10. How [callOpenRouter] ends.  It returns the summary exactly when
    the reply decodes to an object whose "choices" is a non-empty array,
    the first element of which is an object with an object "message" that
    has a string "content".  It returns an error exactly when the request
    fails, or (the error "invalid response from AI provider") when the
    reply is not an object or has no non-empty array under "choices".  In
    every other case, a non-empty "choices" whose first element lacks that
    shape, it panics. *)
Theorem callOpenRouter_outcome env text :
  let reply := Do (newRequest env text) in
  (∀ summary,
     callOpenRouter env text = Returned summary ↔
     ∃ m rest choice message,
       reply = inr (Some m) ∧
       m !! "choices" = Some (Slice (Map choice :: rest)) ∧
       choice !! "message" = Some (Map message) ∧
       message !! "content" = Some (Str summary))
  ∧ (∀ err,
       callOpenRouter env text = Failed err ↔
       reply = inl err ∨
       (err = "invalid response from AI provider" ∧
        ∃ result, reply = inr result ∧
          ∀ first rest, index result "choices" ≠ Slice (first :: rest)))
  ∧ (callOpenRouter env text = Panicked ↔
     ∃ result first rest,
       reply = inr result ∧
       index result "choices" = Slice (first :: rest) ∧
       ∀ choice message summary,
         ¬ (first = Map choice ∧ choice !! "message" = Some (Map message) ∧
            message !! "content" = Some (Str summary))).
Proof.
  intros reply. subst reply. split; [|split].
  - intros summary. split.
    + unfold callOpenRouter.
      destruct (Do _) as [e|result]; [done|].
      destruct (index result "choices") as [| | | |[|first rest]|] eqn:Hch; try done.
      destruct first as [| | | | |choice]; try done.
      destruct (index (Some choice) "message") as [| | | | |message] eqn:Hmsg; try done.
      destruct (index (Some message) "content") as [| | |content| |] eqn:Hct; try done.
      intros [= <-].
      apply index_inv in Hch as (m1 & -> & Hch); [|done].
      apply index_inv in Hmsg as (? & [= <-] & Hmsg); [|done].
      apply index_inv in Hct as (? & [= <-] & Hct); [|done].
      eauto 10.
    + intros (m & rest & choice & message & Hr & Hm & Hmsg & Hct).
      unfold callOpenRouter. rewrite Hr, (index_lookup _ _ _ Hm).
      rewrite (index_lookup _ _ _ Hmsg), (index_lookup _ _ _ Hct). reflexivity.
  - intros err. split.
    + unfold callOpenRouter. intros H. repeat case_match; simplify_eq; auto;
        right; (split; [done|]); eexists; (split; [done|]); intros ? ?; congruence.
    + intros [Hr|(-> & result & Hr & Hno)]; unfold callOpenRouter; rewrite Hr; [done|].
      destruct (index result "choices") as [| | | |[|first rest]|] eqn:Hch; try reflexivity.
      by destruct (Hno first rest).
  - split.
    + unfold callOpenRouter.
      destruct (Do _) as [e|result]; [done|].
      destruct (index result "choices") as [| | | |[|first rest]|] eqn:Hch; try done.
      intros Hp. exists result, first, rest. split; [done|]. split; [done|].
      intros ch msg content (-> & Hmsg & Hct).
      rewrite (index_lookup _ _ _ Hmsg), (index_lookup _ _ _ Hct) in Hp. done.
    + intros (result & first & rest & Hr & Hch & Hnone).
      unfold callOpenRouter. rewrite Hr, Hch.
      destruct first as [| | | | |choice]; try reflexivity.
      destruct (index (Some choice) "message") as [| | | | |message] eqn:Hmsg; try reflexivity.
      destruct (index (Some message) "content") as [| | |content| |] eqn:Hct; try reflexivity.
      exfalso. apply (Hnone choice message content).
      apply index_inv in Hmsg as (? & [= <-] & Hmsg); [|done].
      apply index_inv in Hct as (? & [= <-] & Hct); [|done]. done.
Qed.

End Provider.

(** ** Keys, buckets and the sweep *)
Section Buckets.
Import RateLimit.

Lemma AllowN_map tb key n clock0 clock1 (buckets : gmap string bucket) :
  ∃ b, (AllowN tb key n clock0 clock1 buckets).2 = <[key := b]> buckets
       ∧ lastCheck b = clock1.
Proof.
  rewrite AllowN_refilled. cbv zeta.
  destruct (_ <=? _)%float; eexists; split; reflexivity.
Qed.

Lemma getBucket_other tb clock key (buckets : gmap string bucket) k :
  k ≠ key → (getBucket tb clock key buckets).2 !! k = buckets !! k.
Proof.
  intros Hk. rewrite getBucket_eq. cbn [snd].
  destruct (buckets !! key); [done|]. by rewrite lookup_insert_ne.
Qed.

Lemma getBucket_dom tb clock key (buckets : gmap string bucket) :
  dom (getBucket tb clock key buckets).2 = dom buckets ∪ {[key]}.
Proof.
  rewrite getBucket_eq. cbn [snd].
  destruct (buckets !! key) eqn:Hk.
  - apply elem_of_dom_2 in Hk. set_solver.
  - rewrite dom_insert_L. set_solver.
Qed.

Lemma step_other tb c clock0 clock1 (buckets : gmap string bucket) k :
  call_key c ≠ k → (step tb c clock0 clock1 buckets).2 !! k = buckets !! k.
Proof.
  intros Hk. destruct c as [key|key n|key|key]; cbn [call_key step] in *.
  - unfold Allow. destruct (AllowN_map tb key 1 clock0 clock1 buckets) as (b & Hm & _).
    destruct (AllowN _ _ _ _ _ _) as [r m]. cbn [snd] in *. subst m.
    by rewrite lookup_insert_ne.
  - destruct (AllowN_map tb key n clock0 clock1 buckets) as (b & Hm & _).
    destruct (AllowN _ _ _ _ _ _) as [r m]. cbn [snd] in *. subst m.
    by rewrite lookup_insert_ne.
  - unfold GetRemaining.
    pose proof (getBucket_other tb clock0 key buckets k (not_eq_sym Hk)) as Ho.
    by destruct (getBucket tb clock0 key buckets) as [b m].
  - unfold GetResetTime.
    pose proof (getBucket_other tb clock0 key buckets k (not_eq_sym Hk)) as Ho.
    destruct (getBucket tb clock0 key buckets) as [b m]. cbn [snd] in *.
    by destruct (_ <=? 0)%float.
Qed.

Lemma step_dom tb c clock0 clock1 (buckets : gmap string bucket) :
  dom (step tb c clock0 clock1 buckets).2 = dom buckets ∪ {[call_key c]}.
Proof.
  destruct c as [key|key n|key|key]; cbn [call_key step].
  - unfold Allow. destruct (AllowN_map tb key 1 clock0 clock1 buckets) as (b & Hm & _).
    destruct (AllowN _ _ _ _ _ _) as [r m]. cbn [snd] in *. subst m.
    rewrite dom_insert_L. set_solver.
  - destruct (AllowN_map tb key n clock0 clock1 buckets) as (b & Hm & _).
    destruct (AllowN _ _ _ _ _ _) as [r m]. cbn [snd] in *. subst m.
    rewrite dom_insert_L. set_solver.
  - unfold GetRemaining. pose proof (getBucket_dom tb clock0 key buckets) as Hd.
    by destruct (getBucket tb clock0 key buckets) as [b m].
  - unfold GetResetTime. pose proof (getBucket_dom tb clock0 key buckets) as Hd.
    destruct (getBucket tb clock0 key buckets) as [b m]. cbn [snd] in *.
    by destruct (_ <=? 0)%float.
Qed.

(** X11. Keys do not interfere: whatever calls are made for other keys,
    at whatever clock readings and with whatever results, the bucket of a
    key that none of the calls names is left exactly as it was (and a key
    without a bucket stays without one). *)
Theorem calls_leave_other_keys_alone tb calls (buckets : gmap string bucket) k :
  Forall (λ e : call * Time * Time, call_key e.1.1 ≠ k) calls →
  (run tb calls buckets).2 !! k = buckets !! k.
Proof.
  intros Hall. revert buckets.
  induction Hall as [|[[c clock0] clock1] rest Hc _ IH]; intros buckets; cbn [run]; [done|].
  pose proof (step_other tb c clock0 clock1 buckets k Hc) as Hs.
  destruct (step tb c clock0 clock1 buckets) as [a m1]. cbn [snd] in Hs.
  specialize (IH m1). destruct (run tb rest m1) as [answers m2]. cbn [snd] in *.
  by rewrite IH.
Qed.

(** X12. Every key a call names has a bucket afterwards, and no call
    removes one: after a run of calls the keys with a bucket are those
    that had one before together with those the calls named, reads
    ([GetRemaining], [GetResetTime]) included. *)
Theorem keys_with_a_bucket_after_a_run tb calls (buckets : gmap string bucket) :
  dom (run tb calls buckets).2 = dom buckets ∪ list_to_set ((λ e, call_key e.1.1) <$> calls).
Proof.
  revert buckets. induction calls as [|[[c clock0] clock1] rest IH]; intros buckets; cbn [run].
  - cbn. set_solver.
  - pose proof (step_dom tb c clock0 clock1 buckets) as Hs.
    destruct (step tb c clock0 clock1 buckets) as [a m1]. cbn [snd] in Hs.
    specialize (IH m1). destruct (run tb rest m1) as [answers m2]. cbn [snd] in *.
    rewrite IH, Hs, fmap_cons. cbn [list_to_set fst]. set_solver.
Qed.

Lemma cleanup_pass_lookup tb now (buckets : gmap string bucket) k b :
  cleanup_pass tb now buckets !! k = Some b ↔
  buckets !! k = Some b ∧ Sub now (lastCheck b) ≤ cleanupTTL tb.
Proof.
  unfold cleanup_pass. rewrite map_lookup_filter_Some. cbn [snd].
  rewrite negb_true_iff, Z.ltb_ge. done.
Qed.

(** X13. The sweep: one pass of the cleanup loop keeps, unchanged,
    exactly the buckets whose last check lies at most [cleanupTTL] before
    the pass, and deletes the others.  A key whose bucket was deleted
    starts over: its next access finds the full bucket [getBucket] creates,
    whatever the deleted bucket held. *)
Theorem sweep_keeps_recent_buckets_and_forgets_idle_keys
    tb now (buckets : gmap string bucket) k :
  (∀ b, cleanup_pass tb now buckets !! k = Some b ↔
        buckets !! k = Some b ∧ Sub now (lastCheck b) ≤ cleanupTTL tb)
  ∧ (∀ b clock,
       buckets !! k = Some b → cleanupTTL tb < Sub now (lastCheck b) →
       cleanup_pass tb now buckets !! k = None
       ∧ (getBucket tb clock k (cleanup_pass tb now buckets)).1 = fresh tb clock
       ∧ tokens (getBucket tb clock k (cleanup_pass tb now buckets)).1
         = float64_of_int (burst tb)).
Proof.
  split; [intros b; apply cleanup_pass_lookup|].
  intros b clock Hb Hidle.
  assert (cleanup_pass tb now buckets !! k = None) as Hnone.
  { destruct (cleanup_pass tb now buckets !! k) as [b'|] eqn:Hk; [|done].
    apply cleanup_pass_lookup in Hk as [Hk Hle]. simplify_eq. lia. }
  split; [done|]. rewrite getBucket_eq, Hnone. done.
Qed.

(** X14. What keeps a bucket alive.  [AllowN], allowed or denied, stamps
    the bucket with its clock reading, so the bucket survives every sweep
    that comes at most [cleanupTTL] after the call.  [GetRemaining] and
    [GetResetTime] on a key that has a bucket do not stamp it: a sweep
    afterwards keeps or deletes it as it would have without the read. *)
Theorem AllowN_refreshes_a_bucket_and_reads_do_not
    tb key n clock0 clock1 now (buckets : gmap string bucket) :
  (Sub now clock1 ≤ cleanupTTL tb →
   ∃ b, cleanup_pass tb now (AllowN tb key n clock0 clock1 buckets).2 !! key = Some b
        ∧ lastCheck b = clock1)
  ∧ (is_Some (buckets !! key) →
     cleanup_pass tb now (GetRemaining tb key clock0 clock1 buckets).2
       = cleanup_pass tb now buckets
     ∧ cleanup_pass tb now (GetResetTime tb key clock0 clock1 buckets).2
       = cleanup_pass tb now buckets).
Proof.
  split.
  - intros Hle. destruct (AllowN_map tb key n clock0 clock1 buckets) as (b & Hm & Hb).
    exists b. split; [|done]. apply cleanup_pass_lookup.
    rewrite Hm, lookup_insert_eq, Hb. done.
  - intros [b0 Hk].
    assert ((getBucket tb clock0 key buckets).2 = buckets) as Hg.
    { rewrite getBucket_eq, Hk. done. }
    unfold GetRemaining, GetResetTime.
    destruct (getBucket tb clock0 key buckets) as [b m]. cbn [snd] in Hg. subst m.
    split; [done|]. by destruct (_ <=? 0)%float.
Qed.

End Buckets.

(** ** Concrete runs of the further properties *)
Section MoreRuns.
Import TS.


Lemma redeem_witness :
  let issued := createPaymentContext testConfig (Some "0.005") (constantBytes Byte.x00)
                  1700000000000 emptyState in
  let retry := signed_request "0xValidSig" "00000000-0000-4000-8000-000000000000"
                 "1700000000" in
  amount issued.1 = "0.005"
  ∧ ∃ st2,
      x402Middleware (H := mockEthers) testConfig (constantBytes Byte.x01) 1700000005000
        retry issued.2 = (Next (Some "0xTestUser"), st2)
      ∧ nonceStore st2 = nonceStore emptyState ∖ {[ nonce issued.1 ]}.
Proof.
  intros issued retry. split; [reflexivity|].
  destruct (issued_nonce_is_redeemed_once (E := mockEthers) testConfig (Some "0.005")
              (constantBytes Byte.x00) 1700000000000 emptyState
              (constantBytes Byte.x01) 1700000005000 retry "0xValidSig" 1700000000
              "0xTestUser") as (st2 & Hx & Hst & _).
  - apply presents_signed_request; try discriminate; [vm_compute; reflexivity | lia].
  - vm_compute. reflexivity.
  - exists st2. split; [exact Hx | exact Hst].
Defined.

Lemma trailing_text_witness :
  let st := {| nonceStore := {[ "nonce-123" ]}; console := [] |} in
  let req := signed_request "0xValidSig" "nonce-123" "1700000000" in
  x402Middleware (H := mockEthers) testConfig (constantBytes Byte.x00) 1700000000000
    (with_timestamp req "1700000000 seconds") st
  = x402Middleware (H := mockEthers) testConfig (constantBytes Byte.x00) 1700000000000 req st.
Proof.
  intros st req.
  apply (timestamp_header_is_read_up_to_the_first_non_digit (E := mockEthers) testConfig
           (constantBytes Byte.x00) 1700000000000 req st "1700000000" 1700000000
           " "%char "seconds").
  - vm_compute. reflexivity.
  - vm_compute. reflexivity.
  - vm_compute. reflexivity.
Defined.

Lemma negative_timestamp_witness :
  let st := {| nonceStore := {[ "nonce-123" ]}; console := [] |} in
  x402Middleware (H := mockEthers) testConfig (constantBytes Byte.x00) 1700000000000
    (signed_request "0xValidSig" "nonce-123" " -1700000000") st
  = (Respond {| status := 400;
                body := Failure "Invalid timestamp" (Some "Invalid X-402-Timestamp header") |},
     st).
Proof.
  intros st.
  apply (negative_timestamp_header_is_refused (E := mockEthers) testConfig
           (constantBytes Byte.x00) 1700000000000 _ st " -1700000000" "1700000000").
  - vm_compute. reflexivity.
  - vm_compute. reflexivity.
  - vm_compute. reflexivity.
  - vm_compute. reflexivity.
Defined.

Lemma accumulation_witness :
  let reqs := [(constantBytes Byte.x00, 1700000000000, bareRequest);
               (constantBytes Byte.x01, 1700003600000, bareRequest);
               (constantBytes Byte.x02, 1700007200000, bareRequest)] in
  size (nonceStore (serveAll (H := mockEthers) testConfig reqs emptyState).2) = 3%nat.
Proof.
  intros reqs.
  refine (proj1 (unanswered_challenges_accumulate (E := mockEthers) testConfig reqs
                   emptyState _ _ _)).
  - repeat constructor.
  - vm_compute. repeat constructor; rewrite ?list_elem_of_In; cbn; intuition discriminate.
  - repeat constructor; cbn [nonceStore emptyState]; apply not_elem_of_empty.
Defined.

End MoreRuns.

Section MoreRunsGo.

(** A second handler with the same verifier and another provider. *)
Lemma unapproved_witness :
  let S2 : Gateway.Services :=
    {| Gateway.postVerify := @Gateway.postVerify mockServices;
       Gateway.callOpenRouter := fun _ => inr "provider down" |} in
  let hdr : gmap string string :=
    {[ "X-402-Signature" := "0xInvalidSig"; "X-402-Nonce" := "nonce-123" ]} in
  let c1 := {| Gateway.header := hdr; Gateway.json := None |} in
  let c2 := {| Gateway.header := hdr; Gateway.json := Some {| Gateway.Text := "text" |} |} in
  @Gateway.handleSummarize mockServices ∅ (TS.constantBytes Byte.x00) c1
  = @Gateway.handleSummarize S2 ∅ (TS.constantBytes Byte.x00) c2
  ∧ Gateway.code (@Gateway.handleSummarize mockServices ∅ (TS.constantBytes Byte.x00) c1) = 403.
Proof.
  intros S2 hdr c1 c2.
  destruct (unapproved_request_is_answered_before_body_and_provider mockServices S2 ∅
              (TS.constantBytes Byte.x00) c1 c2 eq_refl eq_refl) as [Heq _].
  - vm_compute. reflexivity.
  - split; [exact Heq | vm_compute; reflexivity].
Defined.

Lemma other_keys_witness :
  let tb := RateLimit.NewTokenBucket 10 5 (300 * RateLimit.Second) in
  let b := {| RateLimit.tokens := 2; RateLimit.lastCheck := RateLimit.at_ns 0 |} in
  let calls := [(RateLimit.CallAllow "a", RateLimit.at_ns 5, RateLimit.at_ns 5);
                (RateLimit.CallAllowN "a" 3, RateLimit.at_ns 6, RateLimit.at_ns 6);
                (RateLimit.CallGetRemaining "c", RateLimit.at_ns 7, RateLimit.at_ns 7)] in
  (RateLimit.run tb calls {[ "b" := b ]}).2 !! "b" = Some b.
Proof.
  intros tb b calls.
  rewrite (calls_leave_other_keys_alone tb calls {[ "b" := b ]} "b").
  - vm_compute. reflexivity.
  - repeat constructor; discriminate.
Defined.

End MoreRunsGo.
